(** * psycopg3 connection objects: a shallow embedding of
      [psycopg3/connection.py] and the properties of its connection state
      machine, encoding cache and notice/notify dispatch. *)

From Stdlib Require Import List String Ascii Strings.Byte Bool NArith ZArith Lia.
Import ListNotations.
Local Open Scope string_scope.
Local Open Scope list_scope.

Set Implicit Arguments.

(* ================================================================== *)
(** * Python values *)
(* ================================================================== *)

(** A Python [bytes] object. *)
Definition bytes := list byte.

(** A Python [str].  Text is represented by its UTF-8 encoding, so that
    the literals of the source are the literals here and decoding as
    UTF-8 is validation. *)
Definition str := string.

(** The literal [b"..."]. *)
Definition b (s : string) : bytes := list_byte_of_string s.

Fixpoint bytes_eqb (x y : bytes) : bool :=
  match x, y with
  | [], [] => true
  | x0 :: x', y0 :: y' => Byte.eqb x0 y0 && bytes_eqb x' y'
  | _, _ => false
  end.

(** Truth value of a [bytes] object: empty is false. *)
Definition bytes_truthy (x : bytes) : bool :=
  match x with [] => false | _ :: _ => true end.

(** Truth value of an [Optional[bytes]]: [None] and [b""] are false. *)
Definition opt_bytes_truthy (x : option bytes) : bool :=
  match x with None => false | Some v => bytes_truthy v end.

(** [x or b""] for [x : Optional[bytes]]. *)
Definition or_empty (x : option bytes) : bytes :=
  match x with
  | Some v => if bytes_truthy v then v else []
  | None => []
  end.

(** ** Exceptions *)

Inductive Exn : Type :=
  | ProgrammingError (msg : str)
  | OperationalError (msg : str)
  | NotSupportedError (msg : str)
  | AttributeError (msg : str)
  | NotImplementedError
  | ValueError (msg : str)
  | IndexError (msg : str)
  | TypeError (msg : str)
  | UnicodeDecodeError (codec : str)
  | UnicodeEncodeError (codec : str)
  | OtherException (cls msg : str)   (* any other subclass of Exception *)
  | KeyboardInterrupt                (* BaseException, not Exception *)
  | SystemExit.                      (* BaseException, not Exception *)

(** [isinstance(ex, Exception)]: what [except Exception] catches. *)
Definition is_Exception (ex : Exn) : bool :=
  match ex with
  | KeyboardInterrupt | SystemExit => false
  | _ => true
  end.

(** Outcome of a call: it returns, it raises, or it does not come back
    because it waits, on the connection's guard that somebody else holds
    or on a collaborator that does not answer. *)
Inductive Res (A : Type) : Type :=
  | Return (a : A)
  | Raise (ex : Exn)
  | Blocked.
Arguments Return {A} a.
Arguments Raise {A} ex.
Arguments Blocked {A}.

(** ** Codecs *)

Definition ord (x : byte) : N := Byte.to_N x.

Definition between (lo hi : N) (x : byte) : bool :=
  ((lo <=? ord x) && (ord x <=? hi))%N.

Definition continuation : byte -> bool := between 0x80 0xBF.

(** Well-formed UTF-8 as the strict decoder accepts it: shortest form
    only, no surrogates, nothing above U+10FFFF. *)
Fixpoint utf8_valid (x : bytes) : bool :=
  match x with
  | [] => true
  | b0 :: r0 =>
    if between 0x00 0x7F b0 then utf8_valid r0 else
    match r0 with
    | [] => false
    | b1 :: r1 =>
      if between 0xC2 0xDF b0 then continuation b1 && utf8_valid r1 else
      match r1 with
      | [] => false
      | b2 :: r2 =>
        if between 0xE0 0xE0 b0 then
          between 0xA0 0xBF b1 && continuation b2 && utf8_valid r2
        else if between 0xE1 0xEC b0 || between 0xEE 0xEF b0 then
          continuation b1 && continuation b2 && utf8_valid r2
        else if between 0xED 0xED b0 then
          between 0x80 0x9F b1 && continuation b2 && utf8_valid r2
        else
        match r2 with
        | [] => false
        | b3 :: r3 =>
          if between 0xF0 0xF0 b0 then
            between 0x90 0xBF b1 && continuation b2 && continuation b3
            && utf8_valid r3
          else if between 0xF1 0xF3 b0 then
            continuation b1 && continuation b2 && continuation b3
            && utf8_valid r3
          else if between 0xF4 0xF4 b0 then
            between 0x80 0x8F b1 && continuation b2 && continuation b3
            && utf8_valid r3
          else false
        end
      end
    end
  end.

Definition ascii_valid (x : bytes) : bool := forallb (between 0x00 0x7F) x.

(** [x.decode("utf-8")] *)
Definition decode_utf8 (x : bytes) : Res str :=
  if utf8_valid x then Return (string_of_list_byte x)
  else Raise (UnicodeDecodeError "utf-8").

(** [x.decode("ascii")] *)
Definition decode_ascii (x : bytes) : Res str :=
  if ascii_valid x then Return (string_of_list_byte x)
  else Raise (UnicodeDecodeError "ascii").

(** [s.encode("ascii")] *)
Definition encode_ascii (s : str) : Res bytes :=
  if ascii_valid (list_byte_of_string s) then Return (list_byte_of_string s)
  else Raise (UnicodeEncodeError "ascii").

(* ================================================================== *)
(** * The [pq] interface *)
(* ================================================================== *)

(** Modelled from the spec: [pq.ConnStatus], declared in the [pq] package
    (the spec lists Starting, Ok, Bad; the source names [BAD]). *)
Inductive ConnStatus : Type := OK | BAD | STARTED.

(** Modelled from the spec: [pq.TransactionStatus] (Idle, ActiveCommand,
    InTransaction, InErrorRecovery, Unknown; the source names [IDLE]). *)
Inductive TransactionStatus : Type := IDLE | ACTIVE | INTRANS | INERROR | UNKNOWN.

(** Modelled from the spec: [pq.ExecStatus]; the source names [COMMAND_OK]
    and [TUPLES_OK], every other status is a different member. *)
Inductive ExecStatus : Type :=
  | EMPTY_QUERY | COMMAND_OK | TUPLES_OK | COPY_OUT | COPY_IN
  | BAD_RESPONSE | NONFATAL_ERROR | FATAL_ERROR.

Module ConnStatus_.
Definition eqb (x y : ConnStatus) : bool :=
  match x, y with
  | OK, OK | BAD, BAD | STARTED, STARTED => true
  | _, _ => false
  end.
End ConnStatus_.

Module TransactionStatus_.
Definition eqb (x y : TransactionStatus) : bool :=
  match x, y with
  | IDLE, IDLE | ACTIVE, ACTIVE | INTRANS, INTRANS
  | INERROR, INERROR | UNKNOWN, UNKNOWN => true
  | _, _ => false
  end.

(** [TransactionStatus(status).name] *)
Definition name (x : TransactionStatus) : str :=
  match x with
  | IDLE => "IDLE" | ACTIVE => "ACTIVE" | INTRANS => "INTRANS"
  | INERROR => "INERROR" | UNKNOWN => "UNKNOWN"
  end.
End TransactionStatus_.

Module ExecStatus_.
Definition eqb (x y : ExecStatus) : bool :=
  match x, y with
  | EMPTY_QUERY, EMPTY_QUERY | COMMAND_OK, COMMAND_OK
  | TUPLES_OK, TUPLES_OK | COPY_OUT, COPY_OUT | COPY_IN, COPY_IN
  | BAD_RESPONSE, BAD_RESPONSE | NONFATAL_ERROR, NONFATAL_ERROR
  | FATAL_ERROR, FATAL_ERROR => true
  | _, _ => false
  end.
End ExecStatus_.

(** [pq.PGnotify] *)
Record PGnotify : Type := { relname : bytes; extra : bytes; be_pid : Z }.

(** The collaborators of the connection layer: the handle
    ([pq.proto.PGconn]), its results ([pq.proto.PGresult]), the
    suspendable operations of [generators] run to their final value, the
    codec table and the error helpers.  None of them is defined in
    [connection.py]; the connection code is written against this
    interface and every property below holds for all its
    implementations. *)
Class Pq : Type := {
  PGconn : Type;
  PGresult : Type;
  (* pgconn.status *)
  PGconn_status : PGconn -> ConnStatus;
  (* pgconn.transaction_status *)
  PGconn_transaction_status : PGconn -> TransactionStatus;
  (* pgconn.parameter_status(name) *)
  PGconn_parameter_status : PGconn -> bytes -> option bytes;
  (* pgconn.send_query(command) *)
  PGconn_send_query : PGconn -> bytes -> Res unit * PGconn;
  (* pgconn.send_query_params(command, params) *)
  PGconn_send_query_params : PGconn -> bytes -> list bytes -> Res unit * PGconn;
  (* pgconn.finish() *)
  PGconn_finish : PGconn -> Res unit * PGconn;
  (* execute(pgconn), driven to its end *)
  execute : PGconn -> Res (list PGresult) * PGconn;
  (* generators.notifies(pgconn), driven to its end *)
  generators_notifies : PGconn -> Res (list PGnotify) * PGconn;
  (* pgres.status *)
  PGresult_status : PGresult -> ExecStatus;
  (* pq.error_message(pgres, encoding=...) *)
  pq_error_message : PGresult -> str -> str;
  (* e.error_from_result(result, encoding=...) *)
  e_error_from_result : PGresult -> str -> Exn;
  (* pq.py_codecs[name], None for KeyError *)
  pq_py_codecs : bytes -> option str;
  (* x.decode(codec) for the codecs other than utf-8 and ascii *)
  codec_decode : str -> bytes -> Res str
}.

(* ================================================================== *)
(** * Connection state *)
(* ================================================================== *)

(** [Notify]: an asynchronous notification received from the database. *)
Record Notify : Type := { channel : str; payload : str; pid : Z }.

(** A registered callback.  [hid] is the identity of the callable; [call]
    is what invoking it does: [None] when it returns, [Some ex] when it
    raises [ex]. *)
Record Handler (A : Type) : Type := { hid : nat; call : A -> option Exn }.

(** What the package logger received from [package_logger.exception]. *)
Record LogRecord : Type := { log_format : str; log_cb : nat; log_ex : Exn }.

(** Calls made on the handle, in the order they were made.  Reading
    [status], [transaction_status] or [parameter_status] does not
    appear: these read what the handle already holds. *)
Inductive Call : Type :=
  | SendQuery (command : bytes)
  | SendQueryParams (command : bytes) (params : list bytes)
  | Execute
  | Notifies
  | Finish.

Section State.
Context `{Pq}.

(** [e.Diagnostic(res, encoding)] *)
Record Diagnostic : Type := { diag_res : PGresult; diag_encoding : str }.

Definition NoticeHandler := Handler Diagnostic.
Definition NotifyHandler := Handler Notify.

(** The attributes of a connection object.  [lock] is the guard of the
    two subclasses: [true] while it is held. *)
Record ConnectionState : Type := {
  pgconn : PGconn;
  _autocommit : bool;
  _notice_handlers : list NoticeHandler;
  _notify_handlers : list NotifyHandler;
  _pgenc : bytes;
  _pyenc : str;
  lock : bool
}.

Definition set_pgconn (h : PGconn) (self : ConnectionState) :=
  {| pgconn := h; _autocommit := _autocommit self;
     _notice_handlers := _notice_handlers self;
     _notify_handlers := _notify_handlers self;
     _pgenc := _pgenc self; _pyenc := _pyenc self; lock := lock self |}.

Definition set_autocommit_attr (v : bool) (self : ConnectionState) :=
  {| pgconn := pgconn self; _autocommit := v;
     _notice_handlers := _notice_handlers self;
     _notify_handlers := _notify_handlers self;
     _pgenc := _pgenc self; _pyenc := _pyenc self; lock := lock self |}.

Definition set_notice_handlers (l : list NoticeHandler) (self : ConnectionState) :=
  {| pgconn := pgconn self; _autocommit := _autocommit self;
     _notice_handlers := l;
     _notify_handlers := _notify_handlers self;
     _pgenc := _pgenc self; _pyenc := _pyenc self; lock := lock self |}.

Definition set_notify_handlers (l : list NotifyHandler) (self : ConnectionState) :=
  {| pgconn := pgconn self; _autocommit := _autocommit self;
     _notice_handlers := _notice_handlers self;
     _notify_handlers := l;
     _pgenc := _pgenc self; _pyenc := _pyenc self; lock := lock self |}.

Definition set_pgenc (v : bytes) (self : ConnectionState) :=
  {| pgconn := pgconn self; _autocommit := _autocommit self;
     _notice_handlers := _notice_handlers self;
     _notify_handlers := _notify_handlers self;
     _pgenc := v; _pyenc := _pyenc self; lock := lock self |}.

Definition set_pyenc (v : str) (self : ConnectionState) :=
  {| pgconn := pgconn self; _autocommit := _autocommit self;
     _notice_handlers := _notice_handlers self;
     _notify_handlers := _notify_handlers self;
     _pgenc := _pgenc self; _pyenc := v; lock := lock self |}.

Definition set_lock (v : bool) (self : ConnectionState) :=
  {| pgconn := pgconn self; _autocommit := _autocommit self;
     _notice_handlers := _notice_handlers self;
     _notify_handlers := _notify_handlers self;
     _pgenc := _pgenc self; _pyenc := _pyenc self; lock := v |}.

(** The connection together with the record of what was asked of its
    handle. *)
Record World : Type := { conn : ConnectionState; io : list Call }.

(** ** Methods: state and failure threaded through *)

Definition M (A : Type) : Type := World -> Res A * World.

Definition ret {A} (a : A) : M A := fun w => (Return a, w).

Definition raise {A} (ex : Exn) : M A := fun w => (Raise ex, w).

Definition bind {A B} (m : M A) (k : A -> M B) : M B :=
  fun w =>
    match m w with
    | (Return a, w') => k a w'
    | (Raise ex, w') => (Raise ex, w')
    | (Blocked, w') => (Blocked, w')
    end.

(** A pure computation that may raise. *)
Definition lift {A} (r : Res A) : M A := fun w => (r, w).

(** Read an attribute of [self]. *)
Definition read {A} (f : ConnectionState -> A) : M A :=
  fun w => (Return (f (conn w)), w).

(** Assign an attribute of [self]. *)
Definition modify (f : ConnectionState -> ConnectionState) : M unit :=
  fun w => (Return tt, {| conn := f (conn w); io := io w |}).

(** A call on [self.pgconn]: recorded, then answered by the handle. *)
Definition on_handle {A} (c : Call) (op : PGconn -> Res A * PGconn) : M A :=
  fun w =>
    let (r, h) := op (pgconn (conn w)) in
    (r, {| conn := set_pgconn h (conn w); io := io w ++ [c] |}).

(** [with self.lock: body] and [async with self.lock: body].  The guard
    is taken on entry and given back on the way out, whether the body
    returns or raises; a caller who finds it taken waits. *)
Definition with_lock {A} (body : M A) : M A :=
  fun w =>
    if lock (conn w) then (Blocked, w)
    else
      match body {| conn := set_lock true (conn w); io := io w |} with
      | (Blocked, w') => (Blocked, w')
      | (r, w') => (r, {| conn := set_lock false (conn w'); io := io w' |})
      end.

End State.

Declare Scope py_scope.
Delimit Scope py_scope with py.
Notation "x <- m ;; k" := (bind m (fun x => k))
  (at level 61, m at next level, right associativity) : py_scope.
Notation "m ;; k" := (bind m (fun _ => k))
  (at level 61, right associativity) : py_scope.
Local Open Scope py_scope.

(** [x.decode(codec)] *)
Definition decode `{Pq} (codec : str) (x : bytes) : Res str :=
  if String.eqb codec "utf-8" || String.eqb codec "utf8" then decode_utf8 x
  else if String.eqb codec "ascii" then decode_ascii x
  else codec_decode codec x.

(** [(x,) = values]: unpacking into a one-element target. *)
Definition unpack1 {A} (values : list A) : Res A :=
  match values with
  | [x] => Return x
  | [] => Raise (ValueError "not enough values to unpack (expected 1, got 0)")
  | _ :: _ :: _ => Raise (ValueError "too many values to unpack (expected 1)")
  end.

(** [values[-1]] *)
Definition item_last {A} (values : list A) : Res A :=
  match rev values with
  | x :: _ => Return x
  | [] => Raise (IndexError "list index out of range")
  end.

(** Modelled from the spec: [waiting.wait] and [waiting.wait_async], the
    two waiters, whose module is not part of [connection.py].  Each
    advances the suspendable operation until it
    produces its final value or failure and hands that on: a failure is
    propagated, never swallowed.  The operation is represented by the
    step that runs it to its end. *)
Definition wait `{Pq} {A} (gen : M A) : M A := gen.

(** Modelled from the spec: [waiting.wait_async], the cooperative
    waiter; see [wait]. *)
Definition wait_async `{Pq} {A} (gen : M A) : M A := gen.

(* ================================================================== *)
(** * Weak references and the handle's callback slots *)
(* ================================================================== *)

(** [weakref.ref(obj)]: the address of the referent, which it does not
    own. *)
Record ReferenceType : Type := ref { referent : nat }.

(** What a Python object may hold on to: the object at an address (which
    it keeps alive), or a weak reference to it (which it does not). *)
Inductive PyObj : Type :=
  | Strong (address : nat)
  | Weak (wr : ReferenceType).

(** The two static methods installed on the handle. *)
Inductive StaticMethod : Type := notice_handler_fn | notify_handler_fn.

(** [functools.partial(func, *args)] *)
Record partial : Type := { func : StaticMethod; args : list PyObj }.

(** The handle's [notice_handler] and [notify_handler] attributes. *)
Record Slots : Type := { notice_handler : partial; notify_handler : partial }.

(** The connection objects that exist, by address. *)
Definition Heap `{Pq} : Type := nat -> option ConnectionState.

(** [wself()] *)
Definition deref `{Pq} (heap : Heap) (wself : ReferenceType) : option ConnectionState :=
  heap (referent wself).

(** The addresses an object keeps alive. *)
Definition keeps_alive (p : partial) : list nat :=
  flat_map (fun o => match o with Strong a => [a] | Weak _ => [] end) (args p).

(** Reclaiming: an object stays only while some root holds it. *)
Definition collect `{Pq} (roots : list nat) (heap : Heap) : Heap :=
  fun a => if existsb (Nat.eqb a) roots then heap a else None.

(* ================================================================== *)
(** * [class BaseConnection] *)
(* ================================================================== *)

(** What a dispatch did: how it ended, which callbacks it invoked (in
    order, with their argument) and what it logged. *)
Inductive Invocation `{Pq} : Type :=
  | NoticeCall (cb : nat) (diag : Diagnostic)
  | NotifyCall (cb : nat) (n : Notify).

Record Dispatch `{Pq} : Type := {
  outcome : Res unit;
  invoked : list Invocation;
  logged : list LogRecord
}.

Module BaseConnection.
Section Methods.
Context `{Pq}.

(** [__init__]: the attributes of a new connection at address [self],
    and the callbacks it installs on the handle.  ([cursor_factory],
    [dumpers] and [loaders] play no part in what follows.) *)
Definition __init__ (self : nat) (pgconn : PGconn) : ConnectionState * Slots :=
  let wself := ref self in
  ({| pgconn := pgconn; _autocommit := false;
      _notice_handlers := []; _notify_handlers := [];
      _pgenc := b ""; _pyenc := "utf-8"; lock := false |},
   {| notice_handler := {| func := notice_handler_fn; args := [Weak wself] |};
      notify_handler := {| func := notify_handler_fn; args := [Weak wself] |} |}).

(** [status] *)
Definition status (self : ConnectionState) : ConnStatus :=
  PGconn_status (pgconn self).

(** [closed] *)
Definition closed (self : ConnectionState) : bool :=
  ConnStatus_.eqb (status self) BAD.

(** [autocommit] *)
Definition autocommit (self : ConnectionState) : bool := _autocommit self.

(** [_set_autocommit]: base implementation, to be called holding the
    lock. *)
Definition _set_autocommit (value : bool) : M unit :=
  status <- read (fun self => PGconn_transaction_status (pgconn self)) ;;
  if negb (TransactionStatus_.eqb status IDLE) then
    raise (ProgrammingError
             ("couldn't change autocommit state: connection in"
              ++ " transaction status " ++ TransactionStatus_.name status)%string)
  else
    modify (set_autocommit_attr value).

(** [pyenc] *)
Definition pyenc : M str :=
  pgenc <- read (fun self =>
             or_empty (PGconn_parameter_status (pgconn self) (b "client_encoding"))) ;;
  cached <- read (@_pgenc _) ;;
  (if negb (bytes_eqb cached pgenc) then
     (if bytes_truthy pgenc then
        match pq_py_codecs pgenc with
        | Some codec => modify (set_pyenc codec)
        | None =>
          name <- lift (decode_ascii pgenc) ;;
          raise (NotSupportedError
                   ("encoding " ++ name ++ " not available in Python")%string)
        end
      else ret tt) ;;
     modify (set_pgenc pgenc)
   else ret tt) ;;
  read (@_pyenc _).

(** [client_encoding] (getter) *)
Definition client_encoding (self : ConnectionState) : Res str :=
  let rv := PGconn_parameter_status (pgconn self) (b "client_encoding") in
  if opt_bytes_truthy rv then
    decode_utf8 (match rv with Some v => v | None => [] end)
  else Return "UTF8".

(** [_set_client_encoding] *)
Definition _set_client_encoding (value : str) : M unit :=
  raise NotImplementedError.

(** [add_notice_handler] *)
Definition add_notice_handler (callback : NoticeHandler) : M unit :=
  modify (fun self =>
            set_notice_handlers (_notice_handlers self ++ [callback]) self).

(** [add_notify_handler] *)
Definition add_notify_handler (callback : NotifyHandler) : M unit :=
  modify (fun self =>
            set_notify_handlers (_notify_handlers self ++ [callback]) self).

(** [list.remove(x)]: drops the first element that is [x]; [None] when
    there is none (a [ValueError]). *)
Fixpoint list_remove {A} (l : list (Handler A)) (x : Handler A) : option (list (Handler A)) :=
  match l with
  | [] => None
  | y :: l' =>
    if Nat.eqb (hid y) (hid x) then Some l'
    else option_map (cons y) (list_remove l' x)
  end.

(** [remove_notice_handler] *)
Definition remove_notice_handler (callback : NoticeHandler) : M unit :=
  l <- read (@_notice_handlers _) ;;
  match list_remove l callback with
  | Some l' => modify (set_notice_handlers l')
  | None => raise (ValueError "list.remove(x): x not in list")
  end.

(** [remove_notify_handler] *)
Definition remove_notify_handler (callback : NotifyHandler) : M unit :=
  l <- read (@_notify_handlers _) ;;
  match list_remove l callback with
  | Some l' => modify (set_notify_handlers l')
  | None => raise (ValueError "list.remove(x): x not in list")
  end.

Definition nothing_done : Dispatch :=
  {| outcome := Return tt; invoked := []; logged := [] |}.

(** One more invocation (and perhaps one more log record) in front of
    what the rest of the loop does. *)
Definition and_then (i : Invocation) (l : list LogRecord) (rest : Dispatch) : Dispatch :=
  {| outcome := outcome rest;
     invoked := i :: invoked rest;
     logged := l ++ logged rest |}.

(** The loop of [_notice_handler]:
    [for cb in self._notice_handlers: try: cb(diag) except Exception ...] *)
Fixpoint notice_loop (cbs : list NoticeHandler) (diag : Diagnostic) : Dispatch :=
  match cbs with
  | [] => nothing_done
  | cb :: rest =>
    match call cb diag with
    | None => and_then (NoticeCall (hid cb) diag) [] (notice_loop rest diag)
    | Some ex =>
      if is_Exception ex then
        and_then (NoticeCall (hid cb) diag)
          [{| log_format := "error processing notice callback '%s': %s";
              log_cb := hid cb; log_ex := ex |}]
          (notice_loop rest diag)
      else
        {| outcome := Raise ex;
           invoked := [NoticeCall (hid cb) diag];
           logged := [] |}
    end
  end.

(** The attribute [self._notice_handler] read for its truth value: the
    static method itself, a function object, hence true. *)
Definition _notice_handler_attr (self : ConnectionState) : bool := true.

(** [_notice_handler] (static) *)
Definition _notice_handler (heap : Heap) (wself : ReferenceType) (res : PGresult) : Dispatch :=
  match deref heap wself with
  | None => nothing_done
  | Some self =>
    if negb (true && _notice_handler_attr self) then nothing_done
    else
      let diag := {| diag_res := res; diag_encoding := _pyenc self |} in
      notice_loop (_notice_handlers self) diag
  end.

(** The loop of [_notify_handler]: [for cb in self._notify_handlers: cb(n)] *)
Fixpoint notify_loop (cbs : list NotifyHandler) (n : Notify) : Dispatch :=
  match cbs with
  | [] => nothing_done
  | cb :: rest =>
    match call cb n with
    | None => and_then (NotifyCall (hid cb) n) [] (notify_loop rest n)
    | Some ex =>
      {| outcome := Raise ex;
         invoked := [NotifyCall (hid cb) n];
         logged := [] |}
    end
  end.

(** Truth value of a list: empty is false. *)
Definition list_truthy {A} (l : list A) : bool :=
  match l with [] => false | _ :: _ => true end.

(** [Notify(pgn.relname.decode(enc), pgn.extra.decode(enc), pgn.be_pid)] *)
Definition make_notify (enc : str) (pgn : PGnotify) : Res Notify :=
  match decode enc (relname pgn) with
  | Return c =>
    match decode enc (extra pgn) with
    | Return p => Return {| channel := c; payload := p; pid := be_pid pgn |}
    | Raise ex => Raise ex
    | Blocked => Blocked
    end
  | Raise ex => Raise ex
  | Blocked => Blocked
  end.

(** [_notify_handler] (static) *)
Definition _notify_handler (heap : Heap) (wself : ReferenceType) (pgn : PGnotify) : Dispatch :=
  match deref heap wself with
  | None => nothing_done
  | Some self =>
    if negb (true && list_truthy (_notify_handlers self)) then nothing_done
    else
      match make_notify (_pyenc self) pgn with
      | Return n => notify_loop (_notify_handlers self) n
      | Raise ex => {| outcome := Raise ex; invoked := []; logged := [] |}
      | Blocked => {| outcome := Blocked; invoked := []; logged := [] |}
      end
  end.

End Methods.
End BaseConnection.

(** How one step of the body of a [notifies] generator ends: at
    [yield n], or back at the top of the [while 1] loop with a new batch
    fetched. *)
Inductive Turn : Type :=
  | Yielded (n : Notify)
  | Fetched.

(* ================================================================== *)
(** * [class Connection(BaseConnection)] *)
(* ================================================================== *)

Module Connection.
Section Methods.
Context `{Pq}.

(** [__init__]: the base attributes and a free [threading.Lock]. *)
Definition __init__ (self : nat) (pgconn : PGconn) : ConnectionState * Slots :=
  let (st, slots) := BaseConnection.__init__ self pgconn in
  (set_lock false st, slots).

(** [close] *)
Definition close : M unit :=
  on_handle Finish PGconn_finish.

(** [_start_query]: meant to be called by a cursor once the lock is
    taken. *)
Definition _start_query : M unit :=
  autocommit <- read (@_autocommit _) ;;
  if autocommit then ret tt
  else
    status <- read (fun self => PGconn_transaction_status (pgconn self)) ;;
    if negb (TransactionStatus_.eqb status IDLE) then ret tt
    else
      on_handle (SendQuery (b "begin")) (fun h => PGconn_send_query h (b "begin")) ;;
      results <- wait (on_handle Execute execute) ;;
      pgres <- lift (unpack1 results) ;;
      if negb (ExecStatus_.eqb (PGresult_status pgres) COMMAND_OK) then
        enc <- read (@_pyenc _) ;;
        raise (OperationalError
                 ("error on begin:" ++ " " ++ pq_error_message pgres enc)%string)
      else ret tt.

(** [_exec_commit_rollback]: the caller must hold the lock. *)
Definition _exec_commit_rollback (command : bytes) : M unit :=
  status <- read (fun self => PGconn_transaction_status (pgconn self)) ;;
  if TransactionStatus_.eqb status IDLE then ret tt
  else
    on_handle (SendQuery command) (fun h => PGconn_send_query h command) ;;
    results <- wait (on_handle Execute execute) ;;
    last <- lift (item_last results) ;;
    if negb (ExecStatus_.eqb (PGresult_status last) COMMAND_OK) then
      cmd <- lift (decode_utf8 command) ;;
      enc <- read (@_pyenc _) ;;
      raise (OperationalError
               ("error on " ++ cmd ++ ":" ++ " " ++ pq_error_message last enc)%string)
    else ret tt.

(** [commit] *)
Definition commit : M unit :=
  with_lock (_exec_commit_rollback (b "commit")).

(** [rollback] *)
Definition rollback : M unit :=
  with_lock (_exec_commit_rollback (b "rollback")).

(** [__exit__]: [exc_type] is given by its truth value, false when the
    block ended without an exception. *)
Definition __exit__ (exc_type : bool) : M unit :=
  (if exc_type then rollback else commit) ;;
  close.

(** [_set_client_encoding] *)
Definition _set_client_encoding (value : str) : M unit :=
  with_lock (
    param <- lift (encode_ascii value) ;;
    on_handle
      (SendQueryParams (b "select set_config('client_encoding', $1, false)") [param])
      (fun h => PGconn_send_query_params h
                  (b "select set_config('client_encoding', $1, false)") [param]) ;;
    results <- wait (on_handle Execute execute) ;;
    result <- lift (unpack1 results) ;;
    if negb (ExecStatus_.eqb (PGresult_status result) TUPLES_OK) then
      enc <- read (@_pyenc _) ;;
      raise (e_error_from_result result enc)
    else ret tt).

(** [notifies], a generator.  Between two resumptions it holds
    [pending], the notifications of the current batch that its [for]
    loop has not reached yet (none when it is created); its other state
    is the connection.  One step of its body: with a notification
    pending, the record is made, with the encoding name the connection
    holds at that moment, and yielded; with none pending the [while 1]
    loop goes round and the next batch is fetched holding the lock.  A
    step that raises ends the generator. *)
Definition notifies (pending : list PGnotify) : M (Turn * list PGnotify) :=
  match pending with
  | pgn :: rest =>
    enc <- read (@_pyenc _) ;;
    n <- lift (BaseConnection.make_notify enc pgn) ;;
    ret (Yielded n, rest)
  | [] =>
    ns <- with_lock (wait (on_handle Notifies generators_notifies)) ;;
    ret (Fetched, ns)
  end.

(** [_set_autocommit] *)
Definition _set_autocommit (value : bool) : M unit :=
  with_lock (BaseConnection._set_autocommit value).

(** [conn.autocommit = value]: the property setter calls
    [self._set_autocommit]. *)
Definition autocommit_setter (value : bool) : M unit :=
  _set_autocommit value.

(** [conn.client_encoding = value]: the property setter calls
    [self._set_client_encoding]. *)
Definition client_encoding_setter (value : str) : M unit :=
  _set_client_encoding value.

End Methods.
End Connection.

(* ================================================================== *)
(** * [class AsyncConnection(BaseConnection)] *)
(* ================================================================== *)

Module AsyncConnection.
Section Methods.
Context `{Pq}.

(** [__init__]: the base attributes and a free [asyncio.Lock]. *)
Definition __init__ (self : nat) (pgconn : PGconn) : ConnectionState * Slots :=
  let (st, slots) := BaseConnection.__init__ self pgconn in
  (set_lock false st, slots).

(** [close] *)
Definition close : M unit :=
  on_handle Finish PGconn_finish.

(** [_start_query]: meant to be called by a cursor once the lock is
    taken. *)
Definition _start_query : M unit :=
  autocommit <- read (@_autocommit _) ;;
  if autocommit then ret tt
  else
    status <- read (fun self => PGconn_transaction_status (pgconn self)) ;;
    if negb (TransactionStatus_.eqb status IDLE) then ret tt
    else
      on_handle (SendQuery (b "begin")) (fun h => PGconn_send_query h (b "begin")) ;;
      results <- wait_async (on_handle Execute execute) ;;
      pgres <- lift (unpack1 results) ;;
      if negb (ExecStatus_.eqb (PGresult_status pgres) COMMAND_OK) then
        enc <- read (@_pyenc _) ;;
        raise (OperationalError
                 ("error on begin:" ++ " " ++ pq_error_message pgres enc)%string)
      else ret tt.

(** [_exec_commit_rollback]: the caller must hold the lock. *)
Definition _exec_commit_rollback (command : bytes) : M unit :=
  status <- read (fun self => PGconn_transaction_status (pgconn self)) ;;
  if TransactionStatus_.eqb status IDLE then ret tt
  else
    on_handle (SendQuery command) (fun h => PGconn_send_query h command) ;;
    results <- wait_async (on_handle Execute execute) ;;
    pgres <- lift (unpack1 results) ;;
    if negb (ExecStatus_.eqb (PGresult_status pgres) COMMAND_OK) then
      cmd <- lift (decode_utf8 command) ;;
      enc <- read (@_pyenc _) ;;
      raise (OperationalError
               ("error on " ++ cmd ++ ":" ++ " " ++ pq_error_message pgres enc)%string)
    else ret tt.

(** [commit] *)
Definition commit : M unit :=
  with_lock (_exec_commit_rollback (b "commit")).

(** [rollback] *)
Definition rollback : M unit :=
  with_lock (_exec_commit_rollback (b "rollback")).

(** [__aexit__]: [exc_type] is given by its truth value. *)
Definition __aexit__ (exc_type : bool) : M unit :=
  (if exc_type then rollback else commit) ;;
  close.

(** [_set_client_encoding]: what the property setter calls. *)
Definition _set_client_encoding (value : str) : M unit :=
  raise (AttributeError
           ("'client_encoding' is read-only on async connections:"
            ++ " please use await .set_client_encoding() instead.")%string).

(** [set_client_encoding] *)
Definition set_client_encoding (value : str) : M unit :=
  with_lock (
    param <- lift (encode_ascii value) ;;
    on_handle
      (SendQueryParams (b "select set_config('client_encoding', $1, false)") [param])
      (fun h => PGconn_send_query_params h
                  (b "select set_config('client_encoding', $1, false)") [param]) ;;
    results <- wait_async (on_handle Execute execute) ;;
    result <- lift (unpack1 results) ;;
    if negb (ExecStatus_.eqb (PGresult_status result) TUPLES_OK) then
      enc <- read (@_pyenc _) ;;
      raise (e_error_from_result result enc)
    else ret tt).

(** [notifies], an asynchronous generator: one step of its body, as
    for [Connection.notifies]. *)
Definition notifies (pending : list PGnotify) : M (Turn * list PGnotify) :=
  match pending with
  | pgn :: rest =>
    enc <- read (@_pyenc _) ;;
    n <- lift (BaseConnection.make_notify enc pgn) ;;
    ret (Yielded n, rest)
  | [] =>
    ns <- with_lock (wait_async (on_handle Notifies generators_notifies)) ;;
    ret (Fetched, ns)
  end.

(** [_set_autocommit]: what the property setter calls. *)
Definition _set_autocommit (value : bool) : M unit :=
  raise (AttributeError
           ("autocommit is read-only on async connections:"
            ++ " please use await connection.set_autocommit() instead."
            ++ " Note that you can pass an 'autocommit' value to 'connect()'"
            ++ " if it doesn't need to change during the connection's lifetime.")%string).

(** [set_autocommit] *)
Definition set_autocommit (value : bool) : M unit :=
  with_lock (BaseConnection._set_autocommit value).

(** [conn.autocommit = value] *)
Definition autocommit_setter (value : bool) : M unit :=
  _set_autocommit value.

(** [conn.client_encoding = value] *)
Definition client_encoding_setter (value : str) : M unit :=
  _set_client_encoding value.

End Methods.
End AsyncConnection.

(** [next(gen)] on a [notifies] generator whose body steps by [step]:
    the body runs until it yields.  Each round of the [while 1] loop
    costs one unit of [fuel]; [None], with the batch just fetched still
    pending, when the fuel is spent before the body yielded. *)
Fixpoint resume `{Pq} (step : list PGnotify -> M (Turn * list PGnotify))
    (fuel : nat) (pending : list PGnotify) : M (option Notify * list PGnotify) :=
  turn <- step pending ;;
  match fst turn with
  | Yielded n => ret (Some n, snd turn)
  | Fetched =>
    match fuel with
    | S fuel' => resume step fuel' (snd turn)
    | O => ret (None, snd turn)
    end
  end.

(** The handle calling one of its callback slots with its argument:
    [pgconn.notice_handler(res)], that is
    [BaseConnection._notice_handler(wself, res)] for the bound [wself]. *)
Definition call_notice_slot `{Pq} (heap : Heap) (slot : partial) (res : PGresult) : Dispatch :=
  match func slot, args slot with
  | notice_handler_fn, [Weak wself] => BaseConnection._notice_handler heap wself res
  | _, _ =>
    {| outcome := Raise (TypeError "bad callback"); invoked := []; logged := [] |}
  end.

Definition call_notify_slot `{Pq} (heap : Heap) (slot : partial) (pgn : PGnotify) : Dispatch :=
  match func slot, args slot with
  | notify_handler_fn, [Weak wself] => BaseConnection._notify_handler heap wself pgn
  | _, _ =>
    {| outcome := Raise (TypeError "bad callback"); invoked := []; logged := [] |}
  end.

(** The connection a weak reference resolves to has no handler in the
    given registry, or there is no such connection any more. *)
Definition no_listener `{Pq} {A} (heap : Heap) (wself : ReferenceType)
    (registry : ConnectionState -> list A) : Prop :=
  match deref heap wself with
  | None => True
  | Some self => registry self = []
  end.

(** [needle in haystack] *)
Definition contains (needle haystack : str) : bool :=
  match String.index 0 needle haystack with
  | Some _ => true
  | None => false
  end.

(* ================================================================== *)
(** * A recording handle double and sample connections *)
(* ================================================================== *)

Record FakeResult : Type := { fr_status : ExecStatus; fr_message : str }.

(** A scripted handle: what it reports, the results its next command
    will produce and the transaction status it reports afterwards. *)
Record FakeConn : Type := {
  fk_status : ConnStatus;
  fk_transaction_status : TransactionStatus;
  fk_client_encoding : option bytes;
  fk_results : list FakeResult;
  fk_then : TransactionStatus
}.

Definition fake_send (h : FakeConn) : Res unit * FakeConn :=
  match fk_status h with
  | BAD => (Raise (OtherException "PQerror" "sending query failed: no connection to the server"), h)
  | _ => (Return tt, h)
  end.

Definition fake_execute (h : FakeConn) : Res (list FakeResult) * FakeConn :=
  (Return (fk_results h),
   {| fk_status := fk_status h; fk_transaction_status := fk_then h;
      fk_client_encoding := fk_client_encoding h;
      fk_results := []; fk_then := fk_then h |}).

Definition fake_finish (h : FakeConn) : Res unit * FakeConn :=
  (Return tt,
   {| fk_status := BAD; fk_transaction_status := UNKNOWN;
      fk_client_encoding := fk_client_encoding h;
      fk_results := []; fk_then := UNKNOWN |}).

Definition fake_codecs (name : bytes) : option str :=
  if bytes_eqb name (b "UTF8") then Some "utf-8"
  else if bytes_eqb name (b "LATIN1") then Some "iso8859-1"
  else None.

#[export] Instance fake : Pq := {|
  PGconn := FakeConn;
  PGresult := FakeResult;
  PGconn_status := fk_status;
  PGconn_transaction_status := fk_transaction_status;
  PGconn_parameter_status := fun h name =>
    if bytes_eqb name (b "client_encoding") then fk_client_encoding h else None;
  PGconn_send_query := fun h _ => fake_send h;
  PGconn_send_query_params := fun h _ _ => fake_send h;
  PGconn_finish := fake_finish;
  execute := fake_execute;
  generators_notifies := fun h => (Return [], h);
  PGresult_status := fr_status;
  pq_error_message := fun r _ => fr_message r;
  e_error_from_result := fun r _ => OtherException "DatabaseError" (fr_message r);
  pq_py_codecs := fake_codecs;
  codec_decode := fun codec _ => Raise (OtherException "LookupError" codec)
|}.

Definition fake_handle (s : ConnStatus) (t : TransactionStatus)
    (enc : option bytes) (rs : list FakeResult) (t' : TransactionStatus) : FakeConn :=
  {| fk_status := s; fk_transaction_status := t; fk_client_encoding := enc;
     fk_results := rs; fk_then := t' |}.

(** A fresh connection on the given handle, at address 1. *)
Definition fresh (h : FakeConn) : World :=
  {| conn := fst (Connection.__init__ 1 h); io := [] |}.

Definition command_ok : FakeResult :=
  {| fr_status := COMMAND_OK; fr_message := "" |}.

Definition aborted : FakeResult :=
  {| fr_status := FATAL_ERROR; fr_message := "current transaction is aborted" |}.

(** Idle, nothing pending. *)
Definition w_idle : World :=
  fresh (fake_handle OK IDLE (Some (b "UTF8")) [] IDLE).

(** In a transaction; the next command succeeds with one result. *)
Definition w_intrans : World :=
  fresh (fake_handle OK INTRANS (Some (b "UTF8")) [command_ok] IDLE).

(** In a transaction; the next command produces two results, the last
    one a success. *)
Definition w_two_results : World :=
  fresh (fake_handle OK INTRANS (Some (b "UTF8")) [command_ok; command_ok] IDLE).

(** In a failed transaction; the next command produces two results, the
    last one an error. *)
Definition w_two_results_error : World :=
  fresh (fake_handle OK INERROR (Some (b "UTF8")) [command_ok; aborted] INERROR).

(** A closed connection: status Bad, transaction status Unknown. *)
Definition w_closed : World :=
  fresh (fake_handle BAD UNKNOWN None [] UNKNOWN).

(** Status Bad on a handle that still reports an idle transaction. *)
Definition w_closed_idle : World :=
  fresh (fake_handle BAD IDLE None [] IDLE).

(** The handle reports an empty [client_encoding]. *)
Definition w_empty_encoding : World :=
  fresh (fake_handle OK IDLE (Some (b "")) [] IDLE).

(** The handle reports a [client_encoding] that is known to no table and
    is not ASCII: the single byte 0xFF. *)
Definition w_binary_encoding : World :=
  fresh (fake_handle OK IDLE (Some [xff]) [] IDLE).

(** The connection of [w_idle] once [pyenc] has been read: the cache
    holds the raw name the handle reports. *)
Definition w_cached : World := snd (BaseConnection.pyenc w_idle).

(** The handle reports an unknown ASCII encoding name. *)
Definition w_unknown_encoding : World :=
  fresh (fake_handle OK IDLE (Some (b "KLINGON")) [] IDLE).

(** A callback that returns and a callback that fails. *)
Definition quiet {A} (n : nat) : Handler A :=
  {| hid := n; call := fun _ => None |}.

Definition failing {A} (n : nat) : Handler A :=
  {| hid := n; call := fun _ => Some (OtherException "RuntimeError" "boom") |}.

(** A live connection at address 1 with the handlers [A, B] registered
    for notices and for notifications, [A] failing. *)
Definition listening : ConnectionState :=
  set_notify_handlers [failing 10; quiet 11]
    (set_notice_handlers [failing 10; quiet 11] (conn w_idle)).

Definition heap_listening : Heap :=
  fun a => if Nat.eqb a 1 then Some listening else None.

(** The connection at address 1 alive, without handlers. *)
Definition heap_silent : Heap :=
  fun a => if Nat.eqb a 1 then Some (conn w_idle) else None.

(** No connection left. *)
Definition heap_empty : Heap := fun _ => None.

Definition a_notification : PGnotify :=
  {| relname := b "ch"; extra := b "hello"; be_pid := 123 |}.

(** What the operation asks of the handle is the call [c] and then, at
    most, the wait for its results. *)
Definition sends `{Pq} {A} (c : Call) (m : M A) (w : World) : Prop :=
  io (snd (m w)) = io w ++ [c] \/ io (snd (m w)) = io w ++ [c; Execute].

(** [_start_query] has a [begin] to issue: autocommit is off and the
    transaction status is Idle. *)
Definition must_begin `{Pq} (w : World) : Prop :=
  _autocommit (conn w) = false /\ PGconn_transaction_status (pgconn (conn w)) = IDLE.

(** The query behind [set_client_encoding]. *)
Definition set_config_query : bytes :=
  b "select set_config('client_encoding', $1, false)".

(** The world after [self._autocommit = value]. *)
Definition assigned `{Pq} (value : bool) (w : World) : World :=
  {| conn := set_autocommit_attr value (conn w); io := io w |}.

(** The callbacks a new connection at address [self] installs on its
    handle. *)
Definition installed `{Pq} (self : nat) (pgconn : PGconn) : Slots :=
  snd (BaseConnection.__init__ self pgconn).

(** The addresses the handle keeps alive through its callback slots. *)
Definition held_by_handle (slots : Slots) : list nat :=
  keeps_alive (notice_handler slots) ++ keeps_alive (notify_handler slots).

(** The record logged for a notice callback that raised. *)
Definition notice_failure {A} (cb : Handler A) (ex : Exn) : LogRecord :=
  {| log_format := "error processing notice callback '%s': %s";
     log_cb := hid cb; log_ex := ex |}.

(** The world seen by the body of a [with self.lock] block. *)
Definition locked `{Pq} (w : World) : World :=
  {| conn := set_lock true (conn w); io := io w |}.

(** The transaction status the handle of [w] reports. *)
Definition reported `{Pq} (w : World) : TransactionStatus :=
  PGconn_transaction_status (pgconn (conn w)).

(** The settings of a connection: every attribute but the handle and
    the guard. *)
Definition same_settings `{Pq} (c c' : ConnectionState) : Prop :=
  _autocommit c' = _autocommit c
  /\ _notice_handlers c' = _notice_handlers c
  /\ _notify_handlers c' = _notify_handlers c
  /\ _pgenc c' = _pgenc c
  /\ _pyenc c' = _pyenc c.

(** An operation that, from every state, leaves the settings as they
    were and adds to the record of handle calls only calls that
    [allowed] admits. *)
Definition frames `{Pq} {A} (allowed : Call -> Prop) (m : M A) : Prop :=
  forall w,
    same_settings (conn w) (conn (snd (m w)))
    /\ exists calls, io (snd (m w)) = io w ++ calls /\ Forall allowed calls.

(** The transaction step of [__exit__] and [__aexit__]. *)
Definition sync_exit_step `{Pq} (exc_type : bool) : M unit :=
  if exc_type then Connection.rollback else Connection.commit.

Definition async_exit_step `{Pq} (exc_type : bool) : M unit :=
  if exc_type then AsyncConnection.rollback else AsyncConnection.commit.

(** A notification whose payload is not UTF-8. *)
Definition a_broken_notification : PGnotify :=
  {| relname := b "ch"; extra := [xff]; be_pid := 7 |}.

(** What is made of the result picked from the results of a command:
    the expected status returns, any other raises [failure] of the
    result; a failure to pick one is the outcome. *)
Definition check_status `{Pq} (expected : ExecStatus) (failure : PGresult -> Exn)
    (picked : Res PGresult) : Res unit :=
  match picked with
  | Return r =>
    if ExecStatus_.eqb (PGresult_status r) expected then Return tt
    else Raise (failure r)
  | Raise ex => Raise ex
  | Blocked => Blocked
  end.

(** The operation [m], run from [w], puts a command to the handle:
    [send] is applied to the handle of the connection; when it raises,
    that failure is the outcome and nothing follows; when it returns,
    [execute] is applied to the handle it left, and the outcome is what
    [decide] makes of the results, or the failure of [execute].  The
    connection keeps the handle as the last answer left it, nothing else
    of it changes, and the calls ([c], then [Execute]) are on record.
    Should the handle not answer, neither does the operation. *)
Definition runs_command `{Pq} (c : Call) (send : PGconn -> Res unit * PGconn)
    (decide : list PGresult -> Res unit) (m : M unit) (w : World) : Prop :=
  forall r1 h1,
    send (pgconn (conn w)) = (r1, h1) ->
    match r1 with
    | Return _ =>
      forall r2 h2,
        execute h1 = (r2, h2) ->
        match r2 with
        | Return results =>
          m w = (decide results,
                 {| conn := set_pgconn h2 (conn w); io := io w ++ [c; Execute] |})
        | Raise ex =>
          m w = (Raise ex,
                 {| conn := set_pgconn h2 (conn w); io := io w ++ [c; Execute] |})
        | Blocked =>
          fst (m w) = Blocked
          /\ pgconn (conn (snd (m w))) = h2
          /\ io (snd (m w)) = io w ++ [c; Execute]
        end
    | Raise ex =>
      m w = (Raise ex, {| conn := set_pgconn h1 (conn w); io := io w ++ [c] |})
    | Blocked =>
      fst (m w) = Blocked
      /\ pgconn (conn (snd (m w))) = h1
      /\ io (snd (m w)) = io w ++ [c]
    end.

(** The step [m] of a [notifies] generator, run from [w], asks the
    handle for its pending notifications: [generators.notifies] is
    applied to the handle of the connection; the batch it returns is
    what the generator holds next, its failure is the outcome.  The
    connection keeps the handle as the answer left it and the call is on
    record. *)
Definition fetches_batch `{Pq} (m : M (Turn * list PGnotify)) (w : World) : Prop :=
  forall r h',
    generators_notifies (pgconn (conn w)) = (r, h') ->
    match r with
    | Return ns =>
      m w = (Return (Fetched, ns),
             {| conn := set_pgconn h' (conn w); io := io w ++ [Notifies] |})
    | Raise ex =>
      m w = (Raise ex,
             {| conn := set_pgconn h' (conn w); io := io w ++ [Notifies] |})
    | Blocked =>
      fst (m w) = Blocked
      /\ pgconn (conn (snd (m w))) = h'
      /\ io (snd (m w)) = io w ++ [Notifies]
    end.

(** Idle; the next command succeeds with one result and opens a
    transaction. *)
Definition w_idle_begin : World :=
  fresh (fake_handle OK IDLE (Some (b "UTF8")) [command_ok] INTRANS).

(** Idle; the next command is refused with one error result. *)
Definition w_begin_refused : World :=
  fresh (fake_handle OK IDLE (Some (b "UTF8")) [aborted] IDLE).

Definition tuples_ok : FakeResult :=
  {| fr_status := TUPLES_OK; fr_message := "" |}.

(** Idle; the next command returns one result with tuples. *)
Definition w_idle_config : World :=
  fresh (fake_handle OK IDLE (Some (b "UTF8")) [tuples_ok] IDLE).

(** A text that is not ASCII: U+00E9. *)
Definition accented : str := string_of_list_byte [xc3; xa9].

(** A second handle double, for [notifies]: its state is the list of
    notifications it has pending, delivered in one batch. *)
Definition pending_handle : Pq := {|
  PGconn := list PGnotify;
  PGresult := FakeResult;
  PGconn_status := fun _ => OK;
  PGconn_transaction_status := fun _ => IDLE;
  PGconn_parameter_status := fun _ _ => None;
  PGconn_send_query := fun h _ => (Return tt, h);
  PGconn_send_query_params := fun h _ _ => (Return tt, h);
  PGconn_finish := fun h => (Return tt, h);
  execute := fun h => (Return [], h);
  generators_notifies := fun h => (Return h, []);
  PGresult_status := fr_status;
  pq_error_message := fun r _ => fr_message r;
  e_error_from_result := fun r _ => OtherException "DatabaseError" (fr_message r);
  pq_py_codecs := fake_codecs;
  codec_decode := fun codec _ => Raise (OtherException "LookupError" codec)
|}.

(** A fresh connection on a handle with two notifications pending, the
    second one undecodable. *)
Definition w_pending : @World pending_handle :=
  {| conn := fst (@Connection.__init__ pending_handle 1
                    [a_notification; a_broken_notification]);
     io := [] |}.

(** The connection of [w_intrans] while somebody holds its guard. *)
Definition w_guarded : World := locked w_intrans.

(* ================================================================== *)
(** * Proof steps *)
(* ================================================================== *)

(** Unfolding the plumbing of a method body. *)
Ltac run :=
  unfold wait, wait_async, bind, read, modify, lift, raise, ret, on_handle;
  simpl.

(** Case analysis on what the handle answered to the next call. *)
Ltac answer :=
  match goal with
  | |- context [PGconn_send_query ?h ?c] =>
    destruct (PGconn_send_query h c) as [[[]| |] ?] eqn:?
  | |- context [PGconn_send_query_params ?h ?c ?p] =>
    destruct (PGconn_send_query_params h c p) as [[[]| |] ?] eqn:?
  | |- context [execute ?h] =>
    destruct (execute h) as [[?| |] ?] eqn:?
  | |- context [generators_notifies ?h] =>
    destruct (generators_notifies h) as [[?| |] ?] eqn:?
  end; simpl.

(** Closing a goal about the calls made: case on what the collaborators
    answered, then on the tests of the body, and compare. *)
Ltac by_cases_on_answers :=
  repeat answer;
  repeat match goal with
         | |- context [match ?x with _ => _ end] => destruct x eqn:?; simpl
         end;
  rewrite <- ?app_assoc; simpl; auto.

(* ================================================================== *)
(** * Basic facts *)
(* ================================================================== *)

Lemma bytes_eqb_refl (x : bytes) : bytes_eqb x x = true.
Proof.
  induction x as [|x0 x IH]; simpl; [reflexivity|].
  rewrite IH, (Byte.byte_dec_lb (eq_refl x0)). reflexivity.
Qed.

Lemma bytes_eqb_eq (x y : bytes) : bytes_eqb x y = true <-> x = y.
Proof.
  split.
  - revert y. induction x as [|x0 x IH]; destruct y as [|y0 y]; simpl;
      try discriminate; auto.
    intros E. apply andb_prop in E. destruct E as [E0 E].
    apply Byte.byte_dec_bl in E0. apply IH in E. congruence.
  - intros ->. apply bytes_eqb_refl.
Qed.

Lemma transaction_status_eqb_eq (x y : TransactionStatus) :
  TransactionStatus_.eqb x y = true <-> x = y.
Proof. destruct x, y; simpl; split; congruence. Qed.

Lemma transaction_status_eqb_neq (x y : TransactionStatus) :
  TransactionStatus_.eqb x y = false <-> x <> y.
Proof. destruct x, y; simpl; split; congruence. Qed.

Section Facts.
Context `{Pq}.

Lemma world_eta (w : World) : {| conn := conn w; io := io w |} = w.
Proof. destruct w; reflexivity. Qed.

(** Taking a free guard and giving it back leaves the attributes as they
    were. *)
Lemma unlock_lock (c : ConnectionState) :
  lock c = false -> set_lock false (set_lock true c) = c.
Proof. destruct c; simpl; intros ->; reflexivity. Qed.

Lemma unlock_handle_lock (c : ConnectionState) (h : PGconn) :
  lock c = false ->
  set_lock false (set_pgconn h (set_lock true c)) = set_pgconn h c.
Proof. destruct c; simpl; intros ->; reflexivity. Qed.

(** A body that touches neither the attributes nor the handle leaves the
    world as it was once the guard is given back. *)
Lemma with_lock_pure {A} (body : M A) (w : World) (r : Res A) :
  lock (conn w) = false ->
  r <> Blocked ->
  body {| conn := set_lock true (conn w); io := io w |}
    = (r, {| conn := set_lock true (conn w); io := io w |}) ->
  with_lock body w = (r, w).
Proof.
  intros Hfree Hr Hbody. unfold with_lock. rewrite Hfree, Hbody.
  simpl. rewrite (unlock_lock _ Hfree), world_eta.
  destruct r; congruence.
Qed.

(** A caller who finds the guard taken does nothing. *)
Lemma with_lock_taken {A} (body : M A) (w : World) :
  lock (conn w) = true -> with_lock body w = (Blocked, w).
Proof. intros Htaken. unfold with_lock. rewrite Htaken. reflexivity. Qed.

End Facts.

(* ================================================================== *)
(** * The [client_encoding] getter *)
(* ================================================================== *)

(** C10, as stated, fails: a handle that reports the empty value
    [b""] reports a value whose UTF-8 decoding is the empty string, and
    the getter answers ["UTF8"]. *)
Lemma client_encoding_of_empty_value :
  PGconn_parameter_status (pgconn (conn w_empty_encoding)) (b "client_encoding")
    = Some (b "")
  /\ decode_utf8 (b "") = Return ""
  /\ BaseConnection.client_encoding (conn w_empty_encoding) = Return "UTF8"
  /\ BaseConnection.client_encoding (conn w_empty_encoding) <> decode_utf8 (b "").
Proof. repeat split; discriminate. Qed.

(** C10 (amended): reading [client_encoding] gives the value the handle
    reports, decoded as UTF-8, when that value is not empty (the
    result of the strict decoder, a decoding failure included), and the
    default ["UTF8"], without raising, when the handle reports no value
    or an empty one. *)
Theorem client_encoding_getter `{Pq} (self : ConnectionState) :
  BaseConnection.client_encoding self =
    match PGconn_parameter_status (pgconn self) (b "client_encoding") with
    | Some (b0 :: rest) => decode_utf8 (b0 :: rest)
    | Some [] => Return "UTF8"
    | None => Return "UTF8"
    end.
Proof.
  unfold BaseConnection.client_encoding.
  destruct (PGconn_parameter_status (pgconn self) (b "client_encoding"))
    as [[|b0 rest]|]; reflexivity.
Qed.

(* ================================================================== *)
(** * Property setters of the cooperative variant *)
(* ================================================================== *)

(** C8: on an [AsyncConnection], assigning [autocommit] or
    [client_encoding] raises at once, whatever the state of the
    connection: nothing is asked of the handle, no attribute changes,
    and the message names the awaitable setter to use instead. *)
Theorem async_property_setters_refuse `{Pq} (w : World) (flag : bool) (enc : str) :
  (exists msg,
      AsyncConnection.autocommit_setter flag w = (Raise (AttributeError msg), w)
      /\ contains "please use await connection.set_autocommit() instead" msg = true)
  /\ (exists msg,
      AsyncConnection.client_encoding_setter enc w = (Raise (AttributeError msg), w)
      /\ contains "please use await .set_client_encoding() instead" msg = true).
Proof.
  split; eexists; split;
    [ unfold AsyncConnection.autocommit_setter,
        AsyncConnection._set_autocommit, raise; reflexivity
    | vm_compute; reflexivity
    | unfold AsyncConnection.client_encoding_setter,
        AsyncConnection._set_client_encoding, raise; reflexivity
    | vm_compute; reflexivity ].
Qed.

(* ================================================================== *)
(** * Changing [autocommit] *)
(* ================================================================== *)

Section Autocommit.
Context `{Pq}.

Lemma base_set_autocommit_idle (w : World) (value : bool) :
  reported w = IDLE ->
  BaseConnection._set_autocommit value w = (Return tt, assigned value w).
Proof.
  unfold reported, BaseConnection._set_autocommit, bind, read, modify, assigned.
  intros ->. reflexivity.
Qed.

Lemma base_set_autocommit_busy (w : World) (value : bool) :
  reported w <> IDLE ->
  BaseConnection._set_autocommit value w =
    (Raise (ProgrammingError
              ("couldn't change autocommit state: connection in transaction status "
               ++ TransactionStatus_.name (reported w))%string), w).
Proof.
  unfold reported, BaseConnection._set_autocommit, bind, read, raise.
  intros Hbusy. apply transaction_status_eqb_neq in Hbusy. rewrite Hbusy.
  reflexivity.
Qed.

(** Under a free guard the guarded setter does what the base one does,
    and the guard is free again afterwards. *)
Lemma locked_set_autocommit (w : World) (value : bool) :
  lock (conn w) = false ->
  with_lock (BaseConnection._set_autocommit value) w =
    BaseConnection._set_autocommit value w.
Proof.
  intros Hfree.
  destruct (TransactionStatus_.eqb (reported w) IDLE) eqn:E.
  - apply transaction_status_eqb_eq in E.
    rewrite (base_set_autocommit_idle _ _ E).
    unfold with_lock. rewrite Hfree.
    rewrite base_set_autocommit_idle by exact E.
    unfold assigned. simpl.
    destruct w as [c tr]. destruct c. simpl in *. subst. reflexivity.
  - apply transaction_status_eqb_neq in E.
    rewrite (base_set_autocommit_busy _ _ E).
    apply with_lock_pure; [exact Hfree | discriminate |].
    rewrite base_set_autocommit_busy by exact E. reflexivity.
Qed.

End Autocommit.

(** C3: setting [autocommit] (through [_set_autocommit] of the base
    class, the guarded setter of [Connection], or [set_autocommit] of
    [AsyncConnection]) on a connection whose transaction status is not
    Idle raises [ProgrammingError] and leaves the connection, hence the
    flag, as it was; when the transaction status is Idle the flag takes
    the new value and nothing else changes. *)
Theorem set_autocommit_needs_idle `{Pq} (w : World) (value : bool) :
  lock (conn w) = false ->
  (reported w <> IDLE ->
     exists msg,
       BaseConnection._set_autocommit value w = (Raise (ProgrammingError msg), w)
       /\ Connection.autocommit_setter value w = (Raise (ProgrammingError msg), w)
       /\ AsyncConnection.set_autocommit value w = (Raise (ProgrammingError msg), w))
  /\ (reported w = IDLE ->
     BaseConnection._set_autocommit value w = (Return tt, assigned value w)
     /\ Connection.autocommit_setter value w = (Return tt, assigned value w)
     /\ AsyncConnection.set_autocommit value w = (Return tt, assigned value w)
     /\ BaseConnection.autocommit (conn (assigned value w)) = value).
Proof.
  intros Hfree. split.
  - intros Hbusy. eexists.
    unfold Connection.autocommit_setter, Connection._set_autocommit,
      AsyncConnection.set_autocommit.
    rewrite (locked_set_autocommit _ _ Hfree).
    rewrite (base_set_autocommit_busy _ _ Hbusy). auto.
  - intros Hidle.
    unfold Connection.autocommit_setter, Connection._set_autocommit,
      AsyncConnection.set_autocommit.
    rewrite (locked_set_autocommit _ _ Hfree).
    rewrite (base_set_autocommit_idle _ _ Hidle). auto.
Qed.

Lemma set_autocommit_needs_idle_witness :
  (exists msg,
      BaseConnection._set_autocommit true w_intrans = (Raise (ProgrammingError msg), w_intrans)
      /\ Connection.autocommit_setter true w_intrans = (Raise (ProgrammingError msg), w_intrans)
      /\ AsyncConnection.set_autocommit true w_intrans = (Raise (ProgrammingError msg), w_intrans))
  /\ (BaseConnection._set_autocommit true w_idle = (Return tt, assigned true w_idle)
      /\ Connection.autocommit_setter true w_idle = (Return tt, assigned true w_idle)
      /\ AsyncConnection.set_autocommit true w_idle = (Return tt, assigned true w_idle)
      /\ BaseConnection.autocommit (conn (assigned true w_idle)) = true).
Proof.
  split.
  - apply (proj1 (set_autocommit_needs_idle w_intrans true eq_refl)).
    discriminate.
  - apply (proj2 (set_autocommit_needs_idle w_idle true eq_refl)).
    reflexivity.
Defined.

(* ================================================================== *)
(** * Starting a transaction *)
(* ================================================================== *)

Section StartQuery.
Context `{Pq}.

Lemma sync_start_query_skips (w : World) :
  ~ must_begin w -> Connection._start_query w = (Return tt, w).
Proof.
  unfold must_begin, Connection._start_query. run. intros Hskip.
  destruct (_autocommit (conn w)); [reflexivity|].
  destruct (PGconn_transaction_status (pgconn (conn w)));
    try reflexivity.
  exfalso. apply Hskip. split; reflexivity.
Qed.

Lemma async_start_query_skips (w : World) :
  ~ must_begin w -> AsyncConnection._start_query w = (Return tt, w).
Proof.
  unfold must_begin, AsyncConnection._start_query. run. intros Hskip.
  destruct (_autocommit (conn w)); [reflexivity|].
  destruct (PGconn_transaction_status (pgconn (conn w)));
    try reflexivity.
  exfalso. apply Hskip. split; reflexivity.
Qed.

Lemma sync_start_query_begins (w : World) :
  must_begin w -> sends (SendQuery (b "begin")) Connection._start_query w.
Proof.
  unfold must_begin, sends, Connection._start_query. run.
  intros [-> ->]. simpl. by_cases_on_answers.
Qed.

Lemma async_start_query_begins (w : World) :
  must_begin w -> sends (SendQuery (b "begin")) AsyncConnection._start_query w.
Proof.
  unfold must_begin, sends, AsyncConnection._start_query. run.
  intros [-> ->]. simpl. by_cases_on_answers.
Qed.

(** With a [begin] to issue: the send does not return. *)
Lemma sync_start_query_refused (w : World) (r1 : Res unit) (h1 : PGconn) :
  must_begin w ->
  PGconn_send_query (pgconn (conn w)) (b "begin") = (r1, h1) ->
  r1 <> Return tt ->
  Connection._start_query w
    = (r1, {| conn := set_pgconn h1 (conn w);
              io := io w ++ [SendQuery (b "begin")] |}).
Proof.
  intros [Hauto Hidle] Hsend Hrefused.
  unfold Connection._start_query. run.
  rewrite Hauto, Hidle. simpl. rewrite Hsend.
  destruct r1 as [[]| |]; [contradiction Hrefused| |]; reflexivity.
Qed.

(** With a [begin] to issue: the send returns and the results are
    awaited. *)
Lemma sync_start_query_waits (w : World) (h1 h2 : PGconn)
    (r2 : Res (list PGresult)) :
  must_begin w ->
  PGconn_send_query (pgconn (conn w)) (b "begin") = (Return tt, h1) ->
  execute h1 = (r2, h2) ->
  Connection._start_query w
    = (match r2 with
       | Return [pgres] =>
         if ExecStatus_.eqb (PGresult_status pgres) COMMAND_OK
         then Return tt
         else Raise (OperationalError
                       ("error on begin: "
                        ++ pq_error_message pgres (_pyenc (conn w)))%string)
       | Return [] =>
         Raise (ValueError "not enough values to unpack (expected 1, got 0)")
       | Return (_ :: _ :: _) =>
         Raise (ValueError "too many values to unpack (expected 1)")
       | Raise ex => Raise ex
       | Blocked => Blocked
       end,
       {| conn := set_pgconn h2 (conn w);
          io := io w ++ [SendQuery (b "begin"); Execute] |}).
Proof.
  intros [Hauto Hidle] Hsend Hexec.
  unfold Connection._start_query. run.
  rewrite Hauto, Hidle. simpl. rewrite Hsend. simpl. rewrite Hexec.
  rewrite <- app_assoc. simpl.
  destruct r2 as [[|pgres [|pgres' more]]| |]; simpl; try reflexivity.
  destruct (ExecStatus_.eqb (PGresult_status pgres) COMMAND_OK); reflexivity.
Qed.

(** The same, in the words of [runs_command]. *)
Lemma sync_start_query_runs (w : World) :
  must_begin w ->
  runs_command (SendQuery (b "begin"))
    (fun h => PGconn_send_query h (b "begin"))
    (fun results =>
       check_status COMMAND_OK
         (fun r => OperationalError
                     ("error on begin: "
                      ++ pq_error_message r (_pyenc (conn w)))%string)
         (unpack1 results))
    Connection._start_query w.
Proof.
  intros Hbegin r1 h1 Hsend.
  destruct r1 as [[]|ex|].
  - intros r2 h2 Hexec.
    rewrite (sync_start_query_waits Hbegin Hsend Hexec).
    destruct r2 as [[|pgres [|pgres' more]]|ex|]; simpl; auto.
  - apply sync_start_query_refused; [assumption | assumption | discriminate].
  - rewrite (sync_start_query_refused Hbegin Hsend) by discriminate.
    simpl. auto.
Qed.

End StartQuery.

(** C4: [_start_query], blocking or cooperative, sends [begin] to the
    handle exactly when autocommit is off and the transaction status is
    Idle.  Then [send_query] is applied to the handle with [b"begin"]:
    if it does not return, its answer is the outcome and the results
    are not awaited; if it returns, [execute] is applied to the handle
    it left, and its failure, or what exactly one result says, is the
    outcome; the connection keeps the handle as the last answer left
    it.  In every other case [_start_query] returns normally, having
    asked nothing of the handle and changed nothing. *)
Theorem start_query_begins_iff `{Pq} (w : World) :
  (must_begin w ->
     forall r1 h1,
       PGconn_send_query (pgconn (conn w)) (b "begin") = (r1, h1) ->
       (r1 <> Return tt ->
          Connection._start_query w
            = (r1, {| conn := set_pgconn h1 (conn w);
                      io := io w ++ [SendQuery (b "begin")] |})
          /\ AsyncConnection._start_query w
            = (r1, {| conn := set_pgconn h1 (conn w);
                      io := io w ++ [SendQuery (b "begin")] |}))
       /\ (r1 = Return tt ->
          forall r2 h2,
            execute h1 = (r2, h2) ->
            Connection._start_query w
              = (match r2 with
                 | Return [pgres] =>
                   if ExecStatus_.eqb (PGresult_status pgres) COMMAND_OK
                   then Return tt
                   else Raise (OperationalError
                                 ("error on begin: "
                                  ++ pq_error_message pgres (_pyenc (conn w)))%string)
                 | Return [] =>
                   Raise (ValueError "not enough values to unpack (expected 1, got 0)")
                 | Return (_ :: _ :: _) =>
                   Raise (ValueError "too many values to unpack (expected 1)")
                 | Raise ex => Raise ex
                 | Blocked => Blocked
                 end,
                 {| conn := set_pgconn h2 (conn w);
                    io := io w ++ [SendQuery (b "begin"); Execute] |})
            /\ AsyncConnection._start_query w = Connection._start_query w))
  /\ (~ must_begin w ->
     Connection._start_query w = (Return tt, w)
     /\ AsyncConnection._start_query w = (Return tt, w)).
Proof.
  split.
  - intros Hbegin r1 h1 Hsend. split.
    + intros Hrefused.
      assert (E : Connection._start_query w
                  = (r1, {| conn := set_pgconn h1 (conn w);
                            io := io w ++ [SendQuery (b "begin")] |}))
        by (apply sync_start_query_refused; assumption).
      split; [exact E | exact E].
    + intros -> r2 h2 Hexec. split; [|reflexivity].
      apply sync_start_query_waits with (h1 := h1); assumption.
  - intros Hskip.
    split; [apply sync_start_query_skips | apply async_start_query_skips];
      exact Hskip.
Qed.

Lemma start_query_begins_iff_witness :
  (Connection._start_query w_idle_begin
     = (Return tt,
        {| conn := set_pgconn (snd (fake_execute (pgconn (conn w_idle_begin))))
                     (conn w_idle_begin);
           io := [SendQuery (b "begin"); Execute] |})
   /\ AsyncConnection._start_query w_idle_begin
     = Connection._start_query w_idle_begin)
  /\ (Connection._start_query w_intrans = (Return tt, w_intrans)
      /\ AsyncConnection._start_query w_intrans = (Return tt, w_intrans)).
Proof.
  split.
  - apply (proj2 (proj1 (@start_query_begins_iff fake w_idle_begin)
                    (conj eq_refl eq_refl)
                    (Return tt) (pgconn (conn w_idle_begin)) eq_refl)
             eq_refl
             (Return [command_ok])
             (snd (fake_execute (pgconn (conn w_idle_begin)))) eq_refl).
  - apply (proj2 (@start_query_begins_iff fake w_intrans)).
    intros [_ Hidle]; discriminate Hidle.
Defined.

(* ================================================================== *)
(** * Commit and rollback *)
(* ================================================================== *)

Section Guard.
Context `{Pq}.

(** With a free guard, a body that returns or raises is run and the
    guard is free again in the world it leaves. *)
Lemma with_lock_runs {A} (body : M A) (w w' : World) (r : Res A) :
  lock (conn w) = false ->
  body (locked w) = (r, w') ->
  r <> Blocked ->
  with_lock body w = (r, {| conn := set_lock false (conn w'); io := io w' |}).
Proof.
  intros Hfree Hbody Hr. unfold with_lock. fold (locked w).
  rewrite Hfree, Hbody. destruct r; congruence.
Qed.

End Guard.

Section CommitRollback.
Context `{Pq}.

Lemma sync_exec_idle (command : bytes) (w : World) :
  reported w = IDLE ->
  Connection._exec_commit_rollback command w = (Return tt, w).
Proof.
  unfold reported, Connection._exec_commit_rollback. run.
  intros ->. reflexivity.
Qed.

Lemma async_exec_idle (command : bytes) (w : World) :
  reported w = IDLE ->
  AsyncConnection._exec_commit_rollback command w = (Return tt, w).
Proof.
  unfold reported, AsyncConnection._exec_commit_rollback. run.
  intros ->. reflexivity.
Qed.

(** Commit and rollback on an idle connection: nothing is sent, nothing
    changes, in both variants. *)
Lemma commit_rollback_idle (w : World) :
  lock (conn w) = false ->
  reported w = IDLE ->
  Connection.commit w = (Return tt, w)
  /\ Connection.rollback w = (Return tt, w)
  /\ AsyncConnection.commit w = (Return tt, w)
  /\ AsyncConnection.rollback w = (Return tt, w).
Proof.
  intros Hfree Hidle.
  unfold Connection.commit, Connection.rollback,
    AsyncConnection.commit, AsyncConnection.rollback.
  repeat split; apply with_lock_pure; try assumption; try discriminate;
    (apply sync_exec_idle || apply async_exec_idle); exact Hidle.
Qed.

(** What the blocking variant makes of the results: the status of the
    last one decides. *)
Lemma sync_exec_decided_by_last (command : bytes) (w : World)
    (h1 h2 : PGconn) (results : list PGresult) (last : PGresult) (cmd : str) :
  reported w <> IDLE ->
  PGconn_send_query (pgconn (conn w)) command = (Return tt, h1) ->
  execute h1 = (Return results, h2) ->
  item_last results = Return last ->
  decode_utf8 command = Return cmd ->
  Connection._exec_commit_rollback command w =
    (if ExecStatus_.eqb (PGresult_status last) COMMAND_OK then Return tt
     else Raise (OperationalError
                   ("error on " ++ cmd ++ ": "
                    ++ pq_error_message last (_pyenc (conn w)))%string),
     {| conn := set_pgconn h2 (conn w);
        io := io w ++ [SendQuery command; Execute] |}).
Proof.
  unfold reported, Connection._exec_commit_rollback. run.
  intros Hbusy Hsend Hexec Hlast Hcmd.
  apply transaction_status_eqb_neq in Hbusy.
  rewrite Hbusy, Hsend. simpl. rewrite Hexec. simpl. rewrite Hlast.
  rewrite <- app_assoc. simpl.
  destruct (ExecStatus_.eqb (PGresult_status last) COMMAND_OK); simpl;
    [reflexivity|].
  rewrite Hcmd. reflexivity.
Qed.

(** What the cooperative variant makes of a single result. *)
Lemma async_exec_decided_by_single (command : bytes) (w : World)
    (h1 h2 : PGconn) (pgres : PGresult) (cmd : str) :
  reported w <> IDLE ->
  PGconn_send_query (pgconn (conn w)) command = (Return tt, h1) ->
  execute h1 = (Return [pgres], h2) ->
  decode_utf8 command = Return cmd ->
  AsyncConnection._exec_commit_rollback command w =
    (if ExecStatus_.eqb (PGresult_status pgres) COMMAND_OK then Return tt
     else Raise (OperationalError
                   ("error on " ++ cmd ++ ": "
                    ++ pq_error_message pgres (_pyenc (conn w)))%string),
     {| conn := set_pgconn h2 (conn w);
        io := io w ++ [SendQuery command; Execute] |}).
Proof.
  unfold reported, AsyncConnection._exec_commit_rollback. run.
  intros Hbusy Hsend Hexec Hcmd.
  apply transaction_status_eqb_neq in Hbusy.
  rewrite Hbusy, Hsend. simpl. rewrite Hexec. simpl.
  rewrite <- app_assoc. simpl.
  destruct (ExecStatus_.eqb (PGresult_status pgres) COMMAND_OK); simpl;
    [reflexivity|].
  rewrite Hcmd. reflexivity.
Qed.

(** What the cooperative variant makes of several results: the
    unpacking fails, whatever their statuses. *)
Lemma async_exec_rejects_several (command : bytes) (w : World)
    (h1 h2 : PGconn) (r1 r2 : PGresult) (more : list PGresult) :
  reported w <> IDLE ->
  PGconn_send_query (pgconn (conn w)) command = (Return tt, h1) ->
  execute h1 = (Return (r1 :: r2 :: more), h2) ->
  fst (AsyncConnection._exec_commit_rollback command w) =
    Raise (ValueError "too many values to unpack (expected 1)").
Proof.
  unfold reported, AsyncConnection._exec_commit_rollback. run.
  intros Hbusy Hsend Hexec.
  apply transaction_status_eqb_neq in Hbusy.
  rewrite Hbusy, Hsend. simpl. rewrite Hexec. reflexivity.
Qed.

(** The two variants do the same whenever the handle delivers exactly
    one result for the command. *)
Lemma exec_variants_agree_on_single (command : bytes) (w : World) :
  (forall h1 h2 results,
      PGconn_send_query (pgconn (conn w)) command = (Return tt, h1) ->
      execute h1 = (Return results, h2) ->
      List.length results = 1) ->
  Connection._exec_commit_rollback command w =
    AsyncConnection._exec_commit_rollback command w.
Proof.
  intros Hone.
  unfold Connection._exec_commit_rollback,
    AsyncConnection._exec_commit_rollback. run.
  destruct (TransactionStatus_.eqb _ IDLE); [reflexivity|].
  destruct (PGconn_send_query (pgconn (conn w)) command)
    as [[[]| |] h1] eqn:Hsend; simpl; try reflexivity.
  destruct (execute h1) as [[results| |] h2] eqn:Hexec; simpl;
    try reflexivity.
  specialize (Hone h1 h2 results eq_refl Hexec).
  destruct results as [|r [|r' more]]; simpl in Hone; try discriminate.
  reflexivity.
Qed.

End CommitRollback.

(** C2 at a failing input.  The connection is in a failed transaction
    and the handle answers the command with two results, the last one
    an error carrying the text "current transaction is aborted".  The
    blocking variant raises the operational failure with that text; the
    cooperative variant, after sending the same command and waiting the
    same way, fails in the unpacking of the results with a [ValueError]
    that says nothing of the server's diagnostic. *)
Theorem async_commit_loses_the_operational_failure :
  reported w_two_results_error = INERROR
  /\ fst (execute (pgconn (conn w_two_results_error))) = Return [command_ok; aborted]
  /\ item_last [command_ok; aborted] = Return aborted
  /\ PGresult_status aborted <> COMMAND_OK
  /\ Connection.commit w_two_results_error =
       (Raise (OperationalError "error on commit: current transaction is aborted"),
        snd (Connection.commit w_two_results_error))
  /\ AsyncConnection.commit w_two_results_error =
       (Raise (ValueError "too many values to unpack (expected 1)"),
        snd (AsyncConnection.commit w_two_results_error))
  /\ AsyncConnection.rollback w_two_results_error =
       (Raise (ValueError "too many values to unpack (expected 1)"),
        snd (AsyncConnection.rollback w_two_results_error))
  /\ io (snd (AsyncConnection.commit w_two_results_error))
       = [SendQuery (b "commit"); Execute].
Proof. repeat split; discriminate. Qed.

(** C9 at a failing input.  Same transaction status, same two results
    from the handle, the last one a success: both variants send
    [commit] and wait, then the blocking variant returns and the
    cooperative variant raises [ValueError]. *)
Theorem commit_variants_disagree :
  reported w_two_results = INTRANS
  /\ fst (execute (pgconn (conn w_two_results))) = Return [command_ok; command_ok]
  /\ io (snd (Connection.commit w_two_results)) = [SendQuery (b "commit"); Execute]
  /\ io (snd (AsyncConnection.commit w_two_results)) = [SendQuery (b "commit"); Execute]
  /\ fst (Connection.commit w_two_results) = Return tt
  /\ fst (AsyncConnection.commit w_two_results)
       = Raise (ValueError "too many values to unpack (expected 1)").
Proof. repeat split. Qed.

(* ================================================================== *)
(** * Operations on a closed connection *)
(* ================================================================== *)

Section Closed.
Context `{Pq}.

(** Commit and rollback of the blocking variant outside the idle state,
    with the guard free. *)
Lemma sync_exec_runs (command : bytes) (cmd : str) (w : World) :
  lock (conn w) = false ->
  reported w <> IDLE ->
  decode_utf8 command = Return cmd ->
  runs_command (SendQuery command)
    (fun h => PGconn_send_query h command)
    (fun results =>
       check_status COMMAND_OK
         (fun r => OperationalError
                     ("error on " ++ cmd ++ ": "
                      ++ pq_error_message r (_pyenc (conn w)))%string)
         (item_last results))
    (with_lock (Connection._exec_commit_rollback command)) w.
Proof.
  destruct w as [c tr]. destruct c. unfold reported. simpl.
  intros -> Hbusy Hcmd r1 h1 Hsend.
  apply transaction_status_eqb_neq in Hbusy.
  unfold with_lock, Connection._exec_commit_rollback, item_last. run.
  rewrite Hbusy. simpl in *. rewrite Hsend.
  destruct r1 as [[]|ex|]; simpl; auto.
  intros r2 h2 Hexec. rewrite Hexec.
  destruct r2 as [results|ex|]; simpl; rewrite <- ?app_assoc; simpl; auto.
  destruct (rev results) as [|last others]; simpl; [reflexivity|].
  destruct (ExecStatus_.eqb (PGresult_status last) COMMAND_OK); simpl;
    [reflexivity|].
  rewrite Hcmd. reflexivity.
Qed.

(** Commit and rollback of the cooperative variant outside the idle
    state, with the guard free. *)
Lemma async_exec_runs (command : bytes) (cmd : str) (w : World) :
  lock (conn w) = false ->
  reported w <> IDLE ->
  decode_utf8 command = Return cmd ->
  runs_command (SendQuery command)
    (fun h => PGconn_send_query h command)
    (fun results =>
       check_status COMMAND_OK
         (fun r => OperationalError
                     ("error on " ++ cmd ++ ": "
                      ++ pq_error_message r (_pyenc (conn w)))%string)
         (unpack1 results))
    (with_lock (AsyncConnection._exec_commit_rollback command)) w.
Proof.
  destruct w as [c tr]. destruct c. unfold reported. simpl.
  intros -> Hbusy Hcmd r1 h1 Hsend.
  apply transaction_status_eqb_neq in Hbusy.
  unfold with_lock, AsyncConnection._exec_commit_rollback. run.
  rewrite Hbusy. simpl in *. rewrite Hsend.
  destruct r1 as [[]|ex|]; simpl; auto.
  intros r2 h2 Hexec. rewrite Hexec.
  destruct r2 as [results|ex|]; simpl; rewrite <- ?app_assoc; simpl; auto.
  destruct results as [|pgres [|pgres' more]]; simpl; try reflexivity.
  destruct (ExecStatus_.eqb (PGresult_status pgres) COMMAND_OK); simpl;
    [reflexivity|].
  rewrite Hcmd. reflexivity.
Qed.

(** Setting the client encoding to an ASCII value, with the guard
    free. *)
Lemma sync_set_client_encoding_runs (w : World) (value : str) (param : bytes) :
  lock (conn w) = false ->
  encode_ascii value = Return param ->
  runs_command (SendQueryParams set_config_query [param])
    (fun h => PGconn_send_query_params h set_config_query [param])
    (fun results =>
       check_status TUPLES_OK
         (fun r => e_error_from_result r (_pyenc (conn w)))
         (unpack1 results))
    (Connection._set_client_encoding value) w.
Proof.
  destruct w as [c tr]. destruct c. simpl.
  intros -> Henc r1 h1 Hsend.
  unfold Connection._set_client_encoding, with_lock, set_config_query in *.
  run. rewrite Henc. simpl in *. rewrite Hsend.
  destruct r1 as [[]|ex|]; simpl; auto.
  intros r2 h2 Hexec. rewrite Hexec.
  destruct r2 as [results|ex|]; simpl; rewrite <- ?app_assoc; simpl; auto.
  destruct results as [|result [|result' more]]; simpl; try reflexivity.
  destruct (ExecStatus_.eqb (PGresult_status result) TUPLES_OK); reflexivity.
Qed.

(** Fetching a batch of notifications, with the guard free. *)
Lemma sync_notifies_fetches (w : World) :
  lock (conn w) = false ->
  fetches_batch (Connection.notifies []) w.
Proof.
  destruct w as [c tr]. destruct c. simpl.
  intros -> r h' Hgen.
  unfold Connection.notifies, with_lock. run. simpl in *. rewrite Hgen.
  destruct r as [ns|ex|]; simpl; auto.
Qed.

End Closed.

(** C5, as stated, fails.  On a connection whose status is Bad (and
    whose handle therefore reports the transaction status Unknown),
    [_start_query] returns normally instead of failing, and [commit],
    [rollback], setting the client encoding and [notifies] each call
    the handle: the failure, when there is one, is the handle's. *)
Lemma closed_connection_is_not_checked :
  BaseConnection.closed (conn w_closed) = true
  /\ io w_closed = []
  /\ Connection._start_query w_closed = (Return tt, w_closed)
  /\ AsyncConnection._start_query w_closed = (Return tt, w_closed)
  /\ io (snd (Connection.commit w_closed)) = [SendQuery (b "commit")]
  /\ io (snd (AsyncConnection.rollback w_closed)) = [SendQuery (b "rollback")]
  /\ io (snd (Connection._set_client_encoding "UTF8" w_closed))
       = [SendQueryParams set_config_query [b "UTF8"]]
  /\ io (snd (Connection.notifies [] w_closed)) = [Notifies].
Proof. repeat split. Qed.

(** C5 (amended): no protocol operation looks at the connection status.
    On a connection whose status is Bad, as on any other, with the guard
    free: [commit] and [rollback] ask nothing of the handle and return
    normally when the transaction status is Idle, and otherwise put
    their command to the handle; [_start_query] puts [begin] to the
    handle when autocommit is off and the transaction status is Idle,
    and otherwise asks nothing and returns normally; setting the client
    encoding to an ASCII value puts the [set_config] query to the
    handle; a [notifies] generator with nothing pending asks the handle
    for its notifications.  Putting a command to the handle is
    [runs_command]: whether the operation fails is the answer of the
    handle to the send, then what its results say (the last result for
    the blocking commit and rollback, exactly one result everywhere
    else), and the connection keeps the handle as its answers left
    it. *)
Theorem closed_connection_operations `{Pq} (w : World) (value : str) (param : bytes) :
  BaseConnection.closed (conn w) = true ->
  lock (conn w) = false ->
  (reported w = IDLE ->
     Connection.commit w = (Return tt, w)
     /\ Connection.rollback w = (Return tt, w)
     /\ AsyncConnection.commit w = (Return tt, w)
     /\ AsyncConnection.rollback w = (Return tt, w))
  /\ (reported w <> IDLE ->
     runs_command (SendQuery (b "commit"))
       (fun h => PGconn_send_query h (b "commit"))
       (fun results =>
          check_status COMMAND_OK
            (fun r => OperationalError
                        ("error on commit: "
                         ++ pq_error_message r (_pyenc (conn w)))%string)
            (item_last results))
       Connection.commit w
     /\ runs_command (SendQuery (b "rollback"))
       (fun h => PGconn_send_query h (b "rollback"))
       (fun results =>
          check_status COMMAND_OK
            (fun r => OperationalError
                        ("error on rollback: "
                         ++ pq_error_message r (_pyenc (conn w)))%string)
            (item_last results))
       Connection.rollback w
     /\ runs_command (SendQuery (b "commit"))
       (fun h => PGconn_send_query h (b "commit"))
       (fun results =>
          check_status COMMAND_OK
            (fun r => OperationalError
                        ("error on commit: "
                         ++ pq_error_message r (_pyenc (conn w)))%string)
            (unpack1 results))
       AsyncConnection.commit w
     /\ runs_command (SendQuery (b "rollback"))
       (fun h => PGconn_send_query h (b "rollback"))
       (fun results =>
          check_status COMMAND_OK
            (fun r => OperationalError
                        ("error on rollback: "
                         ++ pq_error_message r (_pyenc (conn w)))%string)
            (unpack1 results))
       AsyncConnection.rollback w)
  /\ (must_begin w ->
     runs_command (SendQuery (b "begin"))
       (fun h => PGconn_send_query h (b "begin"))
       (fun results =>
          check_status COMMAND_OK
            (fun r => OperationalError
                        ("error on begin: "
                         ++ pq_error_message r (_pyenc (conn w)))%string)
            (unpack1 results))
       Connection._start_query w
     /\ AsyncConnection._start_query w = Connection._start_query w)
  /\ (~ must_begin w ->
     Connection._start_query w = (Return tt, w)
     /\ AsyncConnection._start_query w = (Return tt, w))
  /\ (encode_ascii value = Return param ->
     runs_command (SendQueryParams set_config_query [param])
       (fun h => PGconn_send_query_params h set_config_query [param])
       (fun results =>
          check_status TUPLES_OK
            (fun r => e_error_from_result r (_pyenc (conn w)))
            (unpack1 results))
       (Connection._set_client_encoding value) w
     /\ AsyncConnection.set_client_encoding value w
        = Connection._set_client_encoding value w)
  /\ fetches_batch (Connection.notifies []) w
  /\ AsyncConnection.notifies [] w = Connection.notifies [] w.
Proof.
  intros _ Hfree.
  split; [intros Hidle; apply commit_rollback_idle; assumption|].
  split.
  { intros Hbusy. unfold Connection.commit, Connection.rollback,
      AsyncConnection.commit, AsyncConnection.rollback.
    repeat apply conj.
    - exact (@sync_exec_runs _ (b "commit") "commit" w Hfree Hbusy eq_refl).
    - exact (@sync_exec_runs _ (b "rollback") "rollback" w Hfree Hbusy eq_refl).
    - exact (@async_exec_runs _ (b "commit") "commit" w Hfree Hbusy eq_refl).
    - exact (@async_exec_runs _ (b "rollback") "rollback" w Hfree Hbusy eq_refl). }
  split; [intros Hb; split; [apply sync_start_query_runs; exact Hb
                            | reflexivity]|].
  split; [intros Hs; split;
            [apply sync_start_query_skips | apply async_start_query_skips];
            exact Hs|].
  split; [intros Henc; split;
            [apply sync_set_client_encoding_runs; assumption | reflexivity]|].
  split; [apply sync_notifies_fetches; exact Hfree | reflexivity].
Qed.

Lemma closed_connection_operations_witness :
  (Connection.commit w_closed
     = (Raise (OtherException "PQerror"
                 "sending query failed: no connection to the server"),
        {| conn := conn w_closed; io := [SendQuery (b "commit")] |})
   /\ AsyncConnection.rollback w_closed
     = (Raise (OtherException "PQerror"
                 "sending query failed: no connection to the server"),
        {| conn := conn w_closed; io := [SendQuery (b "rollback")] |}))
  /\ (Connection._start_query w_closed = (Return tt, w_closed)
      /\ AsyncConnection._start_query w_closed = (Return tt, w_closed))
  /\ Connection._set_client_encoding "UTF8" w_closed
     = (Raise (OtherException "PQerror"
                 "sending query failed: no connection to the server"),
        {| conn := conn w_closed;
           io := [SendQueryParams set_config_query [b "UTF8"]] |})
  /\ Connection.notifies [] w_closed
     = (Return (Fetched, []), {| conn := conn w_closed; io := [Notifies] |})
  /\ (Connection.commit w_closed_idle = (Return tt, w_closed_idle)
      /\ Connection.rollback w_closed_idle = (Return tt, w_closed_idle)
      /\ AsyncConnection.commit w_closed_idle = (Return tt, w_closed_idle)
      /\ AsyncConnection.rollback w_closed_idle = (Return tt, w_closed_idle))
  /\ Connection._start_query w_closed_idle
     = (Raise (OtherException "PQerror"
                 "sending query failed: no connection to the server"),
        {| conn := conn w_closed_idle; io := [SendQuery (b "begin")] |}).
Proof.
  destruct (@closed_connection_operations fake w_closed "UTF8" (b "UTF8")
              eq_refl eq_refl)
    as (_ & Hbusy & _ & Hskip & Henc & Hnotifies & _).
  destruct (@closed_connection_operations fake w_closed_idle "UTF8" (b "UTF8")
              eq_refl eq_refl)
    as (Hidle & _ & Hbegin & _).
  assert (Hunknown : reported w_closed <> IDLE) by discriminate.
  destruct (Hbusy Hunknown) as (Hcommit & _ & _ & Hrollback).
  split.
  { split.
    - exact (Hcommit _ _ eq_refl).
    - exact (Hrollback _ _ eq_refl). }
  split; [apply Hskip; intros [_ Ht]; discriminate Ht|].
  split; [exact (proj1 (Henc eq_refl) _ _ eq_refl)|].
  split; [exact (Hnotifies _ _ eq_refl)|].
  split; [apply Hidle; reflexivity|].
  exact (proj1 (Hbegin (conj eq_refl eq_refl)) _ _ eq_refl).
Defined.

(* ================================================================== *)
(** * Notice and notification dispatch *)
(* ================================================================== *)

Section Dispatch.
Context `{Pq}.

(** The notice loop calls every handler, in order, and logs the
    failures, as long as what the handlers raise is an [Exception]. *)
Lemma notice_loop_isolates (cbs : list NoticeHandler) (diag : Diagnostic) :
  (forall cb ex, In cb cbs -> call cb diag = Some ex -> is_Exception ex = true) ->
  outcome (BaseConnection.notice_loop cbs diag) = Return tt
  /\ invoked (BaseConnection.notice_loop cbs diag)
       = map (fun cb => NoticeCall (hid cb) diag) cbs
  /\ logged (BaseConnection.notice_loop cbs diag)
       = flat_map (fun cb => match call cb diag with
                             | Some ex => [notice_failure cb ex]
                             | None => []
                             end) cbs.
Proof.
  induction cbs as [|cb rest IH]; intros Hexc; simpl.
  - auto.
  - destruct IH as (IHo & IHi & IHl).
    { intros cb' ex Hin. apply Hexc. right. exact Hin. }
    destruct (call cb diag) as [ex|] eqn:Hcall; simpl.
    + rewrite (Hexc cb ex (or_introl eq_refl) Hcall). simpl.
      rewrite IHi, IHl. auto.
    + rewrite IHi, IHl. auto.
Qed.

(** The notification loop, when no handler raises, calls every handler
    in order. *)
Lemma notify_loop_quiet (cbs : list NotifyHandler) (n : Notify) :
  (forall cb, In cb cbs -> call cb n = None) ->
  BaseConnection.notify_loop cbs n =
    {| outcome := Return tt;
       invoked := map (fun cb => NotifyCall (hid cb) n) cbs;
       logged := [] |}.
Proof.
  induction cbs as [|cb rest IH]; intros Hquiet; simpl.
  - reflexivity.
  - rewrite (Hquiet cb (or_introl eq_refl)).
    rewrite IH by (intros cb' Hin; apply Hquiet; right; exact Hin).
    reflexivity.
Qed.

(** The notification loop ends at the first handler that raises: the
    failure goes to the caller and the handlers after it are not
    called. *)
Lemma notify_loop_stops (before after : list NotifyHandler)
    (cb : NotifyHandler) (n : Notify) (ex : Exn) :
  (forall cb', In cb' before -> call cb' n = None) ->
  call cb n = Some ex ->
  BaseConnection.notify_loop (before ++ cb :: after) n =
    {| outcome := Raise ex;
       invoked := map (fun cb => NotifyCall (hid cb) n) (before ++ [cb]);
       logged := [] |}.
Proof.
  induction before as [|cb0 rest IH]; intros Hquiet Hcall; simpl.
  - rewrite Hcall. reflexivity.
  - rewrite (Hquiet cb0 (or_introl eq_refl)).
    rewrite IH by (auto; intros cb' Hin; apply Hquiet; right; exact Hin).
    reflexivity.
Qed.

(** Notice dispatch on a live connection. *)
Lemma notice_handler_alive (heap : Heap) (wself : ReferenceType)
    (self : ConnectionState) (res : PGresult) :
  deref heap wself = Some self ->
  BaseConnection._notice_handler heap wself res =
    BaseConnection.notice_loop (_notice_handlers self)
      {| diag_res := res; diag_encoding := _pyenc self |}.
Proof.
  intros Halive. unfold BaseConnection._notice_handler. rewrite Halive.
  reflexivity.
Qed.

End Dispatch.

(** Notice dispatch keeps its promise: on a live connection every
    registered handler is called, in registration order, with the
    diagnostic; each [Exception] a handler raises is logged and the
    dispatch returns normally. *)
Theorem notice_dispatch_isolates_handlers `{Pq} (heap : Heap)
    (wself : ReferenceType) (self : ConnectionState) (res : PGresult) :
  deref heap wself = Some self ->
  (forall cb ex, In cb (_notice_handlers self) ->
                 call cb {| diag_res := res; diag_encoding := _pyenc self |} = Some ex ->
                 is_Exception ex = true) ->
  outcome (BaseConnection._notice_handler heap wself res) = Return tt
  /\ invoked (BaseConnection._notice_handler heap wself res)
       = map (fun cb => NoticeCall (hid cb)
                          {| diag_res := res; diag_encoding := _pyenc self |})
           (_notice_handlers self)
  /\ logged (BaseConnection._notice_handler heap wself res)
       = flat_map (fun cb =>
                     match call cb {| diag_res := res; diag_encoding := _pyenc self |} with
                     | Some ex => [notice_failure cb ex]
                     | None => []
                     end) (_notice_handlers self).
Proof.
  intros Halive Hexc. rewrite (notice_handler_alive _ _ _ Halive).
  apply notice_loop_isolates. exact Hexc.
Qed.

Lemma notice_dispatch_isolates_handlers_witness :
  outcome (BaseConnection._notice_handler heap_listening (ref 1) command_ok) = Return tt
  /\ invoked (BaseConnection._notice_handler heap_listening (ref 1) command_ok)
       = [NoticeCall 10 {| diag_res := command_ok; diag_encoding := "utf-8" |};
          NoticeCall 11 {| diag_res := command_ok; diag_encoding := "utf-8" |}]
  /\ logged (BaseConnection._notice_handler heap_listening (ref 1) command_ok)
       = [notice_failure (failing (A:=Diagnostic) 10) (OtherException "RuntimeError" "boom")].
Proof.
  apply (notice_dispatch_isolates_handlers heap_listening (ref 1)
           (self:=listening) command_ok eq_refl).
  intros cb ex [<-|[<-|[]]]; simpl; intros Hcall; inversion Hcall; reflexivity.
Defined.

(** C1 at a failing input.  A live connection has the handlers [A, B]
    registered, in this order, for notices and for notifications, and
    [A] raises.  On a notice both are called, the failure of [A] is
    logged and the dispatch returns.  On a notification the dispatch
    ends at [A]: [B] is not called, nothing is logged and the failure of
    [A] goes to the step of the handle that delivered the
    notification. *)
Theorem notify_dispatch_stops_at_failing_handler :
  deref heap_listening (ref 1) = Some listening
  /\ map (@hid _) (_notice_handlers listening) = [10; 11]
  /\ map (@hid _) (_notify_handlers listening) = [10; 11]
  /\ outcome (BaseConnection._notice_handler heap_listening (ref 1) command_ok)
       = Return tt
  /\ invoked (BaseConnection._notice_handler heap_listening (ref 1) command_ok)
       = [NoticeCall 10 {| diag_res := command_ok; diag_encoding := "utf-8" |};
          NoticeCall 11 {| diag_res := command_ok; diag_encoding := "utf-8" |}]
  /\ BaseConnection._notify_handler heap_listening (ref 1) a_notification =
       {| outcome := Raise (OtherException "RuntimeError" "boom");
          invoked := [NotifyCall 10 {| channel := "ch"; payload := "hello"; pid := 123 |}];
          logged := [] |}.
Proof. repeat split. Qed.

Section NoListener.
Context `{Pq}.

Lemma notice_handler_no_listener (heap : Heap) (wself : ReferenceType) (res : PGresult) :
  no_listener heap wself (@_notice_handlers _) ->
  BaseConnection._notice_handler heap wself res = BaseConnection.nothing_done.
Proof.
  unfold no_listener, BaseConnection._notice_handler.
  destruct (deref heap wself) as [self|]; [|reflexivity].
  intros ->. reflexivity.
Qed.

Lemma notify_handler_no_listener (heap : Heap) (wself : ReferenceType) (pgn : PGnotify) :
  no_listener heap wself (@_notify_handlers _) ->
  BaseConnection._notify_handler heap wself pgn = BaseConnection.nothing_done.
Proof.
  unfold no_listener, BaseConnection._notify_handler.
  destruct (deref heap wself) as [self|]; [|reflexivity].
  intros ->. reflexivity.
Qed.

(** The slots of the two subclasses are those of the base class. *)
Lemma subclass_slots (self : nat) (pgconn : PGconn) :
  snd (Connection.__init__ self pgconn) = installed self pgconn
  /\ snd (AsyncConnection.__init__ self pgconn) = installed self pgconn.
Proof. split; reflexivity. Qed.

End NoListener.

(** C7: a callback invoked by the handle does nothing (it calls no
    handler, logs nothing and returns normally) when its weak reference
    no longer resolves or when the connection has no handler of its
    kind.  The callbacks a connection installs hold that connection
    through the weak reference only: they keep no address alive, so
    that a connection held by nobody else is reclaimed, after which both
    callbacks do nothing. *)
Theorem callbacks_without_listener `{Pq} (heap : Heap) (wself : ReferenceType)
    (res : PGresult) (pgn : PGnotify) (self : nat) (pgconn : PGconn) :
  (no_listener heap wself (@_notice_handlers _) ->
     BaseConnection._notice_handler heap wself res = BaseConnection.nothing_done)
  /\ (no_listener heap wself (@_notify_handlers _) ->
     BaseConnection._notify_handler heap wself pgn = BaseConnection.nothing_done)
  /\ held_by_handle (installed self pgconn) = []
  /\ held_by_handle (snd (Connection.__init__ self pgconn)) = []
  /\ held_by_handle (snd (AsyncConnection.__init__ self pgconn)) = []
  /\ deref (collect (held_by_handle (installed self pgconn)) heap) (ref self) = None
  /\ call_notice_slot (collect (held_by_handle (installed self pgconn)) heap)
       (notice_handler (installed self pgconn)) res = BaseConnection.nothing_done
  /\ call_notify_slot (collect (held_by_handle (installed self pgconn)) heap)
       (notify_handler (installed self pgconn)) pgn = BaseConnection.nothing_done.
Proof.
  split; [apply notice_handler_no_listener|].
  split; [apply notify_handler_no_listener|].
  repeat split.
Qed.

Lemma callbacks_without_listener_witness :
  BaseConnection._notice_handler heap_empty (ref 1) command_ok
    = BaseConnection.nothing_done
  /\ BaseConnection._notify_handler heap_empty (ref 1) a_notification
    = BaseConnection.nothing_done
  /\ BaseConnection._notice_handler heap_silent (ref 1) command_ok
    = BaseConnection.nothing_done
  /\ BaseConnection._notify_handler heap_silent (ref 1) a_notification
    = BaseConnection.nothing_done.
Proof.
  destruct (callbacks_without_listener heap_empty (ref 1) command_ok
              a_notification 1 (pgconn (conn w_idle)))
    as (Hnotice_gone & Hnotify_gone & _).
  destruct (callbacks_without_listener heap_silent (ref 1) command_ok
              a_notification 1 (pgconn (conn w_idle)))
    as (Hnotice_silent & Hnotify_silent & _).
  split; [apply Hnotice_gone; exact I|].
  split; [apply Hnotify_gone; exact I|].
  split; [apply Hnotice_silent; reflexivity|].
  apply Hnotify_silent; reflexivity.
Defined.

(* ================================================================== *)
(** * The encoding cache *)
(* ================================================================== *)

Section Pyenc.
Context `{Pq}.

(** The raw encoding name [pyenc] compares with the cached one. *)
Lemma pyenc_cache_hit (w : World) :
  _pgenc (conn w)
    = or_empty (PGconn_parameter_status (pgconn (conn w)) (b "client_encoding")) ->
  BaseConnection.pyenc w = (Return (_pyenc (conn w)), w).
Proof.
  intros Hsame. unfold BaseConnection.pyenc. run.
  rewrite <- Hsame, bytes_eqb_refl. simpl. reflexivity.
Qed.

Lemma pyenc_known (w : World) (pgenc : bytes) (codec : str) :
  or_empty (PGconn_parameter_status (pgconn (conn w)) (b "client_encoding")) = pgenc ->
  _pgenc (conn w) <> pgenc ->
  bytes_truthy pgenc = true ->
  pq_py_codecs pgenc = Some codec ->
  BaseConnection.pyenc w =
    (Return codec,
     {| conn := set_pgenc pgenc (set_pyenc codec (conn w)); io := io w |}).
Proof.
  intros Hraw Hdiff Htrue Hcodec. unfold BaseConnection.pyenc. run.
  rewrite Hraw.
  destruct (bytes_eqb (_pgenc (conn w)) pgenc) eqn:E;
    [apply bytes_eqb_eq in E; contradiction|]. simpl.
  rewrite Htrue, Hcodec. reflexivity.
Qed.

(** The handle stops reporting an encoding: the raw name is forgotten,
    the decoded one stays. *)
Lemma pyenc_cleared (w : World) :
  or_empty (PGconn_parameter_status (pgconn (conn w)) (b "client_encoding")) = [] ->
  _pgenc (conn w) <> [] ->
  BaseConnection.pyenc w =
    (Return (_pyenc (conn w)),
     {| conn := set_pgenc [] (conn w); io := io w |}).
Proof.
  intros Hraw Hdiff. unfold BaseConnection.pyenc. run.
  rewrite Hraw.
  destruct (bytes_eqb (_pgenc (conn w)) []) eqn:E;
    [apply bytes_eqb_eq in E; contradiction|]. reflexivity.
Qed.

(** An unknown name that is ASCII: the not-supported failure, and
    nothing changes. *)
Lemma pyenc_unknown_ascii (w : World) (pgenc : bytes) (name : str) :
  or_empty (PGconn_parameter_status (pgconn (conn w)) (b "client_encoding")) = pgenc ->
  _pgenc (conn w) <> pgenc ->
  bytes_truthy pgenc = true ->
  pq_py_codecs pgenc = None ->
  decode_ascii pgenc = Return name ->
  BaseConnection.pyenc w =
    (Raise (NotSupportedError ("encoding " ++ name ++ " not available in Python")%string),
     w).
Proof.
  intros Hraw Hdiff Htrue Hcodec Hname. unfold BaseConnection.pyenc. run.
  rewrite Hraw.
  destruct (bytes_eqb (_pgenc (conn w)) pgenc) eqn:E;
    [apply bytes_eqb_eq in E; contradiction|]. simpl.
  rewrite Htrue, Hcodec, Hname. reflexivity.
Qed.

(** An unknown name that is not ASCII: the failure of the decoding, and
    nothing changes. *)
Lemma pyenc_unknown_not_ascii (w : World) (pgenc : bytes) :
  or_empty (PGconn_parameter_status (pgconn (conn w)) (b "client_encoding")) = pgenc ->
  _pgenc (conn w) <> pgenc ->
  bytes_truthy pgenc = true ->
  pq_py_codecs pgenc = None ->
  ascii_valid pgenc = false ->
  BaseConnection.pyenc w = (Raise (UnicodeDecodeError "ascii"), w).
Proof.
  intros Hraw Hdiff Htrue Hcodec Hname. unfold BaseConnection.pyenc. run.
  rewrite Hraw.
  destruct (bytes_eqb (_pgenc (conn w)) pgenc) eqn:E;
    [apply bytes_eqb_eq in E; contradiction|]. simpl.
  unfold decode_ascii. rewrite Htrue, Hcodec, Hname. reflexivity.
Qed.

End Pyenc.

(** C6 at a failing input.  The handle reports as [client_encoding] the
    single byte 0xFF, which differs from the cached raw value and is in
    no codec table.  Building the message of the not-supported failure
    decodes the name as ASCII, and it is that decoding which fails: the
    caller receives [UnicodeDecodeError], not [NotSupportedError].  The
    cache is left as it was. *)
Theorem pyenc_of_unknown_binary_name :
  PGconn_parameter_status (pgconn (conn w_binary_encoding)) (b "client_encoding")
    = Some [xff]
  /\ _pgenc (conn w_binary_encoding) = b ""
  /\ pq_py_codecs [xff] = None
  /\ BaseConnection.pyenc w_binary_encoding
       = (Raise (UnicodeDecodeError "ascii"), w_binary_encoding)
  /\ BaseConnection.pyenc w_unknown_encoding
       = (Raise (NotSupportedError "encoding KLINGON not available in Python"),
          w_unknown_encoding).
Proof. repeat split. Qed.

(* ================================================================== *)
(** * What commit and rollback do guarantee *)
(* ================================================================== *)

Section GuardedExec.
Context `{Pq}.

Lemma sync_guarded_exec (command : bytes) (cmd : str) (w : World)
    (h1 h2 : PGconn) (results : list PGresult) (last : PGresult) :
  lock (conn w) = false ->
  reported w <> IDLE ->
  PGconn_send_query (pgconn (conn w)) command = (Return tt, h1) ->
  execute h1 = (Return results, h2) ->
  item_last results = Return last ->
  decode_utf8 command = Return cmd ->
  with_lock (Connection._exec_commit_rollback command) w =
    (if ExecStatus_.eqb (PGresult_status last) COMMAND_OK then Return tt
     else Raise (OperationalError
                   ("error on " ++ cmd ++ ": "
                    ++ pq_error_message last (_pyenc (conn w)))%string),
     {| conn := set_pgconn h2 (conn w);
        io := io w ++ [SendQuery command; Execute] |}).
Proof.
  intros Hfree Hbusy Hsend Hexec Hlast Hcmd.
  assert (Hbody := @sync_exec_decided_by_last _ command (locked w) h1 h2
                      results last cmd Hbusy Hsend Hexec Hlast Hcmd).
  rewrite (with_lock_runs _ w Hfree Hbody).
  - simpl. rewrite (unlock_handle_lock _ h2 Hfree). reflexivity.
  - destruct (ExecStatus_.eqb (PGresult_status last) COMMAND_OK); discriminate.
Qed.

Lemma async_guarded_exec (command : bytes) (cmd : str) (w : World)
    (h1 h2 : PGconn) (pgres : PGresult) :
  lock (conn w) = false ->
  reported w <> IDLE ->
  PGconn_send_query (pgconn (conn w)) command = (Return tt, h1) ->
  execute h1 = (Return [pgres], h2) ->
  decode_utf8 command = Return cmd ->
  with_lock (AsyncConnection._exec_commit_rollback command) w =
    (if ExecStatus_.eqb (PGresult_status pgres) COMMAND_OK then Return tt
     else Raise (OperationalError
                   ("error on " ++ cmd ++ ": "
                    ++ pq_error_message pgres (_pyenc (conn w)))%string),
     {| conn := set_pgconn h2 (conn w);
        io := io w ++ [SendQuery command; Execute] |}).
Proof.
  intros Hfree Hbusy Hsend Hexec Hcmd.
  assert (Hbody := @async_exec_decided_by_single _ command (locked w) h1 h2
                      pgres cmd Hbusy Hsend Hexec Hcmd).
  rewrite (with_lock_runs _ w Hfree Hbody).
  - simpl. rewrite (unlock_handle_lock _ h2 Hfree). reflexivity.
  - destruct (ExecStatus_.eqb (PGresult_status pgres) COMMAND_OK); discriminate.
Qed.

End GuardedExec.

(** Commit in the blocking variant.  With the guard free: on an idle
    connection nothing is sent and nothing changes; otherwise [commit]
    is sent, the results are awaited and, when the last result is not
    [COMMAND_OK], [OperationalError] is raised with the diagnostic of
    that result in its message.  The handle is left as the server
    reports it and the guard is free again. *)
Theorem blocking_commit_contract `{Pq} (w : World) (h1 h2 : PGconn)
    (results : list PGresult) (last : PGresult) :
  lock (conn w) = false ->
  (reported w = IDLE -> Connection.commit w = (Return tt, w))
  /\ (reported w <> IDLE ->
      PGconn_send_query (pgconn (conn w)) (b "commit") = (Return tt, h1) ->
      execute h1 = (Return results, h2) ->
      item_last results = Return last ->
      Connection.commit w =
        (if ExecStatus_.eqb (PGresult_status last) COMMAND_OK then Return tt
         else Raise (OperationalError
                       ("error on commit: "
                        ++ pq_error_message last (_pyenc (conn w)))%string),
         {| conn := set_pgconn h2 (conn w);
            io := io w ++ [SendQuery (b "commit"); Execute] |})).
Proof.
  intros Hfree. split.
  - intros Hidle. apply (commit_rollback_idle w Hfree Hidle).
  - intros Hbusy Hsend Hexec Hlast. unfold Connection.commit.
    rewrite (@sync_guarded_exec _ (b "commit") "commit" w h1 h2 results last
               Hfree Hbusy Hsend Hexec Hlast eq_refl).
    reflexivity.
Qed.

Lemma blocking_commit_contract_witness :
  Connection.commit w_idle = (Return tt, w_idle)
  /\ Connection.commit w_two_results_error =
       (Raise (OperationalError "error on commit: current transaction is aborted"),
        {| conn := set_pgconn (snd (fake_execute (pgconn (conn w_two_results_error))))
                     (conn w_two_results_error);
           io := [SendQuery (b "commit"); Execute] |}).
Proof.
  split.
  - apply (proj1 (blocking_commit_contract w_idle (pgconn (conn w_idle))
                    (pgconn (conn w_idle)) [] command_ok eq_refl)).
    reflexivity.
  - apply (proj2 (blocking_commit_contract w_two_results_error
                    (pgconn (conn w_two_results_error))
                    (snd (fake_execute (pgconn (conn w_two_results_error))))
                    [command_ok; aborted] aborted eq_refl));
      [discriminate | reflexivity | reflexivity | reflexivity].
Defined.

(** Rollback in the blocking variant: as commit, with its own
    command. *)
Theorem blocking_rollback_contract `{Pq} (w : World) (h1 h2 : PGconn)
    (results : list PGresult) (last : PGresult) :
  lock (conn w) = false ->
  (reported w = IDLE -> Connection.rollback w = (Return tt, w))
  /\ (reported w <> IDLE ->
      PGconn_send_query (pgconn (conn w)) (b "rollback") = (Return tt, h1) ->
      execute h1 = (Return results, h2) ->
      item_last results = Return last ->
      Connection.rollback w =
        (if ExecStatus_.eqb (PGresult_status last) COMMAND_OK then Return tt
         else Raise (OperationalError
                       ("error on rollback: "
                        ++ pq_error_message last (_pyenc (conn w)))%string),
         {| conn := set_pgconn h2 (conn w);
            io := io w ++ [SendQuery (b "rollback"); Execute] |})).
Proof.
  intros Hfree. split.
  - intros Hidle. apply (commit_rollback_idle w Hfree Hidle).
  - intros Hbusy Hsend Hexec Hlast. unfold Connection.rollback.
    rewrite (@sync_guarded_exec _ (b "rollback") "rollback" w h1 h2 results last
               Hfree Hbusy Hsend Hexec Hlast eq_refl).
    reflexivity.
Qed.

Lemma blocking_rollback_contract_witness :
  Connection.rollback w_idle = (Return tt, w_idle)
  /\ fst (Connection.rollback w_two_results_error) =
       Raise (OperationalError "error on rollback: current transaction is aborted").
Proof.
  split.
  - apply (proj1 (blocking_rollback_contract w_idle (pgconn (conn w_idle))
                    (pgconn (conn w_idle)) [] command_ok eq_refl)).
    reflexivity.
  - rewrite (proj2 (blocking_rollback_contract w_two_results_error
                      (pgconn (conn w_two_results_error))
                      (snd (fake_execute (pgconn (conn w_two_results_error))))
                      [command_ok; aborted] aborted eq_refl));
      [reflexivity | discriminate | reflexivity | reflexivity | reflexivity].
Defined.

(** Commit and rollback in the cooperative variant.  With the guard
    free: on an idle connection nothing is sent and nothing changes;
    otherwise the command is sent, the results are awaited and, when the
    handle delivers exactly one result and it is not [COMMAND_OK],
    [OperationalError] is raised with the diagnostic of that result in
    its message. *)
Theorem cooperative_commit_rollback_contract `{Pq} (w : World) (h1 h2 h3 h4 : PGconn)
    (committed rolled_back : PGresult) :
  lock (conn w) = false ->
  (reported w = IDLE ->
     AsyncConnection.commit w = (Return tt, w)
     /\ AsyncConnection.rollback w = (Return tt, w))
  /\ (reported w <> IDLE ->
      PGconn_send_query (pgconn (conn w)) (b "commit") = (Return tt, h1) ->
      execute h1 = (Return [committed], h2) ->
      AsyncConnection.commit w =
        (if ExecStatus_.eqb (PGresult_status committed) COMMAND_OK then Return tt
         else Raise (OperationalError
                       ("error on commit: "
                        ++ pq_error_message committed (_pyenc (conn w)))%string),
         {| conn := set_pgconn h2 (conn w);
            io := io w ++ [SendQuery (b "commit"); Execute] |}))
  /\ (reported w <> IDLE ->
      PGconn_send_query (pgconn (conn w)) (b "rollback") = (Return tt, h3) ->
      execute h3 = (Return [rolled_back], h4) ->
      AsyncConnection.rollback w =
        (if ExecStatus_.eqb (PGresult_status rolled_back) COMMAND_OK then Return tt
         else Raise (OperationalError
                       ("error on rollback: "
                        ++ pq_error_message rolled_back (_pyenc (conn w)))%string),
         {| conn := set_pgconn h4 (conn w);
            io := io w ++ [SendQuery (b "rollback"); Execute] |})).
Proof.
  intros Hfree. split; [|split].
  - intros Hidle. split; apply (commit_rollback_idle w Hfree Hidle).
  - intros Hbusy Hsend Hexec. unfold AsyncConnection.commit.
    rewrite (@async_guarded_exec _ (b "commit") "commit" w h1 h2 committed
               Hfree Hbusy Hsend Hexec eq_refl).
    reflexivity.
  - intros Hbusy Hsend Hexec. unfold AsyncConnection.rollback.
    rewrite (@async_guarded_exec _ (b "rollback") "rollback" w h3 h4 rolled_back
               Hfree Hbusy Hsend Hexec eq_refl).
    reflexivity.
Qed.

Lemma cooperative_commit_rollback_contract_witness :
  (AsyncConnection.commit w_idle = (Return tt, w_idle)
   /\ AsyncConnection.rollback w_idle = (Return tt, w_idle))
  /\ fst (AsyncConnection.commit w_intrans) = Return tt
  /\ fst (AsyncConnection.rollback w_intrans) = Return tt.
Proof.
  split; [|split].
  - apply (proj1 (cooperative_commit_rollback_contract w_idle
                    (pgconn (conn w_idle)) (pgconn (conn w_idle))
                    (pgconn (conn w_idle)) (pgconn (conn w_idle))
                    command_ok command_ok eq_refl)).
    reflexivity.
  - rewrite (proj1 (proj2 (cooperative_commit_rollback_contract w_intrans
                      (pgconn (conn w_intrans))
                      (snd (fake_execute (pgconn (conn w_intrans))))
                      (pgconn (conn w_intrans))
                      (snd (fake_execute (pgconn (conn w_intrans))))
                      command_ok command_ok eq_refl)));
      [reflexivity | discriminate | reflexivity | reflexivity].
  - rewrite (proj2 (proj2 (cooperative_commit_rollback_contract w_intrans
                      (pgconn (conn w_intrans))
                      (snd (fake_execute (pgconn (conn w_intrans))))
                      (pgconn (conn w_intrans))
                      (snd (fake_execute (pgconn (conn w_intrans))))
                      command_ok command_ok eq_refl)));
      [reflexivity | discriminate | reflexivity | reflexivity].
Defined.

(** The two variants of commit and of rollback do the same, outcome and
    final state, whenever the handle answers the command with exactly
    one result (or with a failure). *)
Theorem commit_variants_agree_on_single_result `{Pq} (w : World) :
  (forall command h1 h2 results,
      PGconn_send_query (pgconn (conn w)) command = (Return tt, h1) ->
      execute h1 = (Return results, h2) ->
      List.length results = 1) ->
  Connection.commit w = AsyncConnection.commit w
  /\ Connection.rollback w = AsyncConnection.rollback w.
Proof.
  intros Hone.
  unfold Connection.commit, Connection.rollback,
    AsyncConnection.commit, AsyncConnection.rollback, with_lock.
  destruct (lock (conn w)); [split; reflexivity|].
  split; rewrite exec_variants_agree_on_single; try reflexivity;
    intros h1 h2 results; apply Hone.
Qed.

Lemma commit_variants_agree_on_single_result_witness :
  Connection.commit w_intrans = AsyncConnection.commit w_intrans
  /\ Connection.rollback w_intrans = AsyncConnection.rollback w_intrans.
Proof.
  apply (commit_variants_agree_on_single_result w_intrans).
  intros command h1 h2 results Hsend Hexec.
  inversion Hsend; subst h1. inversion Hexec. reflexivity.
Defined.

(* ================================================================== *)
(** * What the encoding cache and the notification dispatch do
      guarantee *)
(* ================================================================== *)

(** The decoded encoding is recomputed only when the raw name the handle
    reports differs from the cached one.  When they are equal [pyenc]
    answers from the cache and changes nothing; when they differ and the
    new name is in the codec table, both cached values are replaced;
    when they differ and the new name is an ASCII name that is not in
    the table, [NotSupportedError] is raised and the cache is left as it
    was. *)
Theorem pyenc_cache_contract `{Pq} (w : World) (pgenc : bytes) (name codec : str) :
  or_empty (PGconn_parameter_status (pgconn (conn w)) (b "client_encoding")) = pgenc ->
  (_pgenc (conn w) = pgenc ->
     BaseConnection.pyenc w = (Return (_pyenc (conn w)), w))
  /\ (_pgenc (conn w) <> pgenc -> bytes_truthy pgenc = true ->
      pq_py_codecs pgenc = Some codec ->
      BaseConnection.pyenc w =
        (Return codec,
         {| conn := set_pgenc pgenc (set_pyenc codec (conn w)); io := io w |}))
  /\ (_pgenc (conn w) <> pgenc -> bytes_truthy pgenc = true ->
      pq_py_codecs pgenc = None ->
      decode_ascii pgenc = Return name ->
      BaseConnection.pyenc w =
        (Raise (NotSupportedError
                  ("encoding " ++ name ++ " not available in Python")%string), w)).
Proof.
  intros Hraw. split; [|split].
  - intros Hsame. apply pyenc_cache_hit. congruence.
  - intros Hdiff Htrue Hcodec. apply pyenc_known; assumption.
  - intros Hdiff Htrue Hcodec Hname.
    apply pyenc_unknown_ascii with (pgenc := pgenc); assumption.
Qed.

Lemma pyenc_cache_contract_witness :
  BaseConnection.pyenc w_cached = (Return "utf-8", w_cached)
  /\ BaseConnection.pyenc w_idle = (Return "utf-8", w_cached)
  /\ BaseConnection.pyenc w_unknown_encoding =
       (Raise (NotSupportedError "encoding KLINGON not available in Python"),
        w_unknown_encoding).
Proof.
  split; [|split].
  - apply (proj1 (@pyenc_cache_contract fake w_cached (b "UTF8") "" "" eq_refl)).
    reflexivity.
  - apply (proj1 (proj2 (@pyenc_cache_contract fake w_idle (b "UTF8")
                           "" "utf-8" eq_refl)));
      [discriminate | reflexivity | reflexivity].
  - apply (proj2 (proj2 (@pyenc_cache_contract fake w_unknown_encoding
                           (b "KLINGON") "KLINGON" "" eq_refl)));
      [discriminate | reflexivity | reflexivity | reflexivity].
Defined.

(** Notification dispatch on a live connection calls the registered
    handlers in registration order up to the first one that raises; the
    failure of that handler is the outcome of the dispatch, nothing is
    logged, and the handlers registered after it are not called. *)
Theorem notify_dispatch_until_first_failure `{Pq} (heap : Heap)
    (wself : ReferenceType) (self : ConnectionState) (pgn : PGnotify)
    (n : Notify) (before after : list NotifyHandler) (cb : NotifyHandler)
    (ex : Exn) :
  deref heap wself = Some self ->
  _notify_handlers self = before ++ cb :: after ->
  BaseConnection.make_notify (_pyenc self) pgn = Return n ->
  (forall cb', In cb' before -> call cb' n = None) ->
  call cb n = Some ex ->
  BaseConnection._notify_handler heap wself pgn =
    {| outcome := Raise ex;
       invoked := map (fun cb => NotifyCall (hid cb) n) (before ++ [cb]);
       logged := [] |}.
Proof.
  intros Halive Hregistered Hdecoded Hquiet Hraises.
  unfold BaseConnection._notify_handler.
  rewrite Halive, Hregistered, Hdecoded.
  replace (BaseConnection.list_truthy (before ++ cb :: after)) with true
    by (destruct before; reflexivity).
  simpl. apply notify_loop_stops; assumption.
Qed.

Lemma notify_dispatch_until_first_failure_witness :
  BaseConnection._notify_handler heap_listening (ref 1) a_notification =
    {| outcome := Raise (OtherException "RuntimeError" "boom");
       invoked := [NotifyCall 10 {| channel := "ch"; payload := "hello"; pid := 123 |}];
       logged := [] |}.
Proof.
  apply (@notify_dispatch_until_first_failure fake heap_listening (ref 1)
           listening a_notification
           {| channel := "ch"; payload := "hello"; pid := 123 |}
           [] [quiet 11] (failing 10) (OtherException "RuntimeError" "boom")
           eq_refl eq_refl eq_refl).
  - intros cb' [].
  - reflexivity.
Defined.

(* ================================================================== *)
(** * What the protocol operations leave alone *)
(* ================================================================== *)

Section Frames.
Context `{Pq}.
Variable allowed : Call -> Prop.

Lemma same_settings_refl (c : ConnectionState) : same_settings c c.
Proof. repeat split. Qed.

Lemma same_settings_trans (c1 c2 c3 : ConnectionState) :
  same_settings c1 c2 -> same_settings c2 c3 -> same_settings c1 c3.
Proof.
  unfold same_settings. intros (A1 & A2 & A3 & A4 & A5) (B1 & B2 & B3 & B4 & B5).
  repeat split; congruence.
Qed.

Lemma frames_ret {A} (a : A) : frames allowed (ret a).
Proof.
  intros w. split; [apply same_settings_refl|].
  exists []. simpl. rewrite app_nil_r. auto.
Qed.

Lemma frames_raise {A} (ex : Exn) : frames allowed (@raise _ A ex).
Proof.
  intros w. split; [apply same_settings_refl|].
  exists []. simpl. rewrite app_nil_r. auto.
Qed.

Lemma frames_lift {A} (r : Res A) : frames allowed (lift r).
Proof.
  intros w. split; [apply same_settings_refl|].
  exists []. simpl. rewrite app_nil_r. auto.
Qed.

Lemma frames_read {A} (f : ConnectionState -> A) : frames allowed (read f).
Proof.
  intros w. split; [apply same_settings_refl|].
  exists []. simpl. rewrite app_nil_r. auto.
Qed.

Lemma frames_on_handle {A} (c : Call) (op : PGconn -> Res A * PGconn) :
  allowed c -> frames allowed (on_handle c op).
Proof.
  intros Hc w. unfold on_handle.
  destruct (op (pgconn (conn w))) as [r h]. simpl. split.
  - repeat split.
  - exists [c]. auto.
Qed.

Lemma frames_bind {A B} (m : M A) (k : A -> M B) :
  frames allowed m -> (forall a, frames allowed (k a)) ->
  frames allowed (bind m k).
Proof.
  intros Hm Hk w. unfold bind.
  destruct (Hm w) as (Hs & calls & Hio & Hall).
  destruct (m w) as [[a| |] w1]; simpl in *;
    try (split; [exact Hs | exists calls; auto]).
  destruct (Hk a w1) as (Hs' & calls' & Hio' & Hall').
  split.
  - eapply same_settings_trans; eassumption.
  - exists (calls ++ calls'). rewrite Hio', Hio, app_assoc. split; [reflexivity|].
    apply Forall_app. auto.
Qed.

Lemma frames_with_lock {A} (body : M A) :
  frames allowed body -> frames allowed (with_lock body).
Proof.
  intros Hbody w. unfold with_lock.
  destruct (lock (conn w)).
  - split; [apply same_settings_refl|].
    exists []. simpl. rewrite app_nil_r. auto.
  - destruct (Hbody {| conn := set_lock true (conn w); io := io w |})
      as (Hs & calls & Hio & Hall).
    destruct (body _) as [[a| |] w1]; simpl in *;
      (split; [exact Hs | exists calls; auto]).
Qed.

End Frames.

(** Going through a method body with the lemmas above. *)
Ltac frame :=
  unfold wait, wait_async;
  repeat first
    [ apply frames_ret | apply frames_raise | apply frames_lift
    | apply frames_read | apply frames_with_lock
    | apply frames_on_handle; try exact I; try discriminate
    | apply frames_bind; [|intro]
    | match goal with
      | |- frames _ (if ?c then _ else _) => destruct c
      | |- frames _ (match ?x with _ => _ end) => destruct x
      end ].

Section FramedOperations.
Context `{Pq}.
Variable allowed : Call -> Prop.
Hypothesis allowed_queries :
  forall c, c <> Finish -> allowed c.

Lemma frames_sync_exec (command : bytes) :
  frames allowed (Connection._exec_commit_rollback command).
Proof.
  unfold Connection._exec_commit_rollback. frame;
    apply allowed_queries; discriminate.
Qed.

Lemma frames_async_exec (command : bytes) :
  frames allowed (AsyncConnection._exec_commit_rollback command).
Proof.
  unfold AsyncConnection._exec_commit_rollback. frame;
    apply allowed_queries; discriminate.
Qed.







End FramedOperations.


(* ================================================================== *)
(** * Leaving a [with] block *)
(* ================================================================== *)

Section Exit.
Context `{Pq}.

Lemma frames_sync_exit_step (exc_type : bool) :
  frames (fun c => c <> Finish) (sync_exit_step exc_type).
Proof.
  unfold sync_exit_step, Connection.rollback, Connection.commit.
  destruct exc_type; apply frames_with_lock; apply frames_sync_exec; auto.
Qed.

Lemma frames_async_exit_step (exc_type : bool) :
  frames (fun c => c <> Finish) (async_exit_step exc_type).
Proof.
  unfold async_exit_step, AsyncConnection.rollback, AsyncConnection.commit.
  destruct exc_type; apply frames_with_lock; apply frames_async_exec; auto.
Qed.

(** An operation that asks for anything but [finish] does not put
    [finish] on record. *)
Lemma no_finish_recorded {A} (m : M A) (w : World) :
  frames (fun c => c <> Finish) m ->
  ~ In Finish (io w) -> ~ In Finish (io (snd (m w))).
Proof.
  intros Hm Hbefore Hafter.
  destruct (Hm w) as (_ & calls & Hio & Hall).
  rewrite Hio in Hafter. apply in_app_or in Hafter.
  destruct Hafter as [Hin|Hin]; [exact (Hbefore Hin)|].
  rewrite Forall_forall in Hall. exact (Hall Finish Hin eq_refl).
Qed.

(** The step came back: the handle is finished next. *)
Lemma exit_after_step (step : M unit) (w w1 : World) :
  step w = (Return tt, w1) ->
  bind step (fun _ => Connection.close) w
    = (fst (PGconn_finish (pgconn (conn w1))),
       {| conn := set_pgconn (snd (PGconn_finish (pgconn (conn w1)))) (conn w1);
          io := io w1 ++ [Finish] |}).
Proof.
  intros Hstep. unfold bind, Connection.close, on_handle. rewrite Hstep.
  destruct (PGconn_finish (pgconn (conn w1))). reflexivity.
Qed.

(** The step did not come back: nothing follows it. *)
Lemma exit_without_step (step : M unit) (w : World) :
  fst (step w) <> Return tt ->
  bind step (fun _ => Connection.close) w = step w.
Proof.
  unfold bind.
  destruct (step w) as [[[]| |] w1]; simpl; intros Hr;
    [contradiction Hr|..]; reflexivity.
Qed.

End Exit.

(** [__exit__] and [__aexit__] roll back when the block raised and
    commit otherwise, and finish the handle only if that step returned:
    then [finish] is applied to the handle the step left, its outcome is
    the outcome, and the connection keeps the handle as [finish] left
    it.  When the step raises (or waits), its failure is the outcome and
    [finish] is not called: the handle stays open. *)
Theorem exit_finishes_only_after_the_transaction_step `{Pq}
    (exc_type : bool) (w : World) :
  (forall w1,
      sync_exit_step exc_type w = (Return tt, w1) ->
      Connection.__exit__ exc_type w
        = (fst (PGconn_finish (pgconn (conn w1))),
           {| conn := set_pgconn (snd (PGconn_finish (pgconn (conn w1)))) (conn w1);
              io := io w1 ++ [Finish] |}))
  /\ (fst (sync_exit_step exc_type w) <> Return tt ->
      Connection.__exit__ exc_type w = sync_exit_step exc_type w
      /\ (~ In Finish (io w) ->
          ~ In Finish (io (snd (Connection.__exit__ exc_type w)))))
  /\ (forall w1,
      async_exit_step exc_type w = (Return tt, w1) ->
      AsyncConnection.__aexit__ exc_type w
        = (fst (PGconn_finish (pgconn (conn w1))),
           {| conn := set_pgconn (snd (PGconn_finish (pgconn (conn w1)))) (conn w1);
              io := io w1 ++ [Finish] |}))
  /\ (fst (async_exit_step exc_type w) <> Return tt ->
      AsyncConnection.__aexit__ exc_type w = async_exit_step exc_type w
      /\ (~ In Finish (io w) ->
          ~ In Finish (io (snd (AsyncConnection.__aexit__ exc_type w))))).
Proof.
  split; [|split; [|split]].
  - intros w1. apply (exit_after_step (sync_exit_step exc_type)).
  - intros Hfailed.
    assert (E : Connection.__exit__ exc_type w = sync_exit_step exc_type w)
      by exact (exit_without_step (sync_exit_step exc_type) w Hfailed).
    split; [exact E|]. rewrite E.
    apply no_finish_recorded, frames_sync_exit_step.
  - intros w1. apply (exit_after_step (async_exit_step exc_type)).
  - intros Hfailed.
    assert (E : AsyncConnection.__aexit__ exc_type w = async_exit_step exc_type w)
      by exact (exit_without_step (async_exit_step exc_type) w Hfailed).
    split; [exact E|]. rewrite E.
    apply no_finish_recorded, frames_async_exit_step.
Qed.

Lemma exit_finishes_only_after_the_transaction_step_witness :
  Connection.__exit__ false w_intrans
    = (Return tt,
       {| conn := set_pgconn
                    (snd (fake_finish (pgconn (conn (snd (Connection.commit w_intrans)))))) 
                    (conn (snd (Connection.commit w_intrans)));
          io := [SendQuery (b "commit"); Execute; Finish] |})
  /\ (Connection.__exit__ true w_two_results_error
        = Connection.rollback w_two_results_error
      /\ ~ In Finish (io (snd (Connection.__exit__ true w_two_results_error))))
  /\ AsyncConnection.__aexit__ false w_intrans
     = Connection.__exit__ false w_intrans
  /\ (AsyncConnection.__aexit__ false w_two_results
        = AsyncConnection.commit w_two_results
      /\ ~ In Finish (io (snd (AsyncConnection.__aexit__ false w_two_results)))).
Proof.
  destruct (@exit_finishes_only_after_the_transaction_step fake false w_intrans)
    as (Hsync & _ & Hasync & _).
  destruct (@exit_finishes_only_after_the_transaction_step fake true
              w_two_results_error)
    as (_ & Hsync_failed & _).
  destruct (@exit_finishes_only_after_the_transaction_step fake false
              w_two_results)
    as (_ & _ & _ & Hasync_failed).
  split; [exact (Hsync (snd (Connection.commit w_intrans)) eq_refl)|].
  split.
  { destruct Hsync_failed as [E Hnone]; [discriminate|].
    split; [exact E | apply Hnone; intros []]. }
  split.
  { rewrite (Hasync (snd (AsyncConnection.commit w_intrans)) eq_refl).
    rewrite (Hsync (snd (Connection.commit w_intrans)) eq_refl).
    reflexivity. }
  destruct Hasync_failed as [E Hnone]; [discriminate|].
  split; [exact E | apply Hnone; intros []].
Defined.

(* ================================================================== *)
(** * The guard *)
(* ================================================================== *)

Section GuardDiscipline.
Context `{Pq}.

Lemma with_lock_releases {A} (body : M A) (w : World) :
  lock (conn w) = false ->
  fst (with_lock body w) <> Blocked ->
  lock (conn (snd (with_lock body w))) = false.
Proof.
  intros Hfree. unfold with_lock. rewrite Hfree.
  destruct (body _) as [[a|ex|] w1]; simpl; intros Hr;
    [reflexivity | reflexivity | contradiction Hr; reflexivity].
Qed.

Lemma sync_notifies_taken (w : World) :
  lock (conn w) = true -> Connection.notifies [] w = (Blocked, w).
Proof.
  intros Htaken. unfold Connection.notifies, bind.
  rewrite (with_lock_taken _ _ Htaken). reflexivity.
Qed.

Lemma async_notifies_taken (w : World) :
  lock (conn w) = true -> AsyncConnection.notifies [] w = (Blocked, w).
Proof.
  intros Htaken. unfold AsyncConnection.notifies, bind.
  rewrite (with_lock_taken _ _ Htaken). reflexivity.
Qed.

Lemma sync_notifies_releases (pending : list PGnotify) (w : World) :
  lock (conn w) = false ->
  fst (Connection.notifies pending w) <> Blocked ->
  lock (conn (snd (Connection.notifies pending w))) = false.
Proof.
  intros Hfree. destruct pending as [|pgn rest].
  - unfold Connection.notifies, bind.
    pose proof (with_lock_releases
                  (wait (on_handle Notifies generators_notifies)) w Hfree)
      as Hrel.
    destruct (with_lock _ w) as [[ns|ex|] w1]; simpl in *; intros Hr.
    + apply Hrel. discriminate.
    + apply Hrel. discriminate.
    + contradiction Hr. reflexivity.
  - unfold Connection.notifies. run.
    destruct (BaseConnection.make_notify (_pyenc (conn w)) pgn);
      simpl; intros _; exact Hfree.
Qed.

Lemma async_notifies_releases (pending : list PGnotify) (w : World) :
  lock (conn w) = false ->
  fst (AsyncConnection.notifies pending w) <> Blocked ->
  lock (conn (snd (AsyncConnection.notifies pending w))) = false.
Proof.
  exact (sync_notifies_releases pending w).
Qed.

End GuardDiscipline.

(** Commit, rollback, setting the client encoding, setting autocommit
    and the fetch of a [notifies] generator (the step it takes with
    nothing pending) run under the guard, in both variants.  While
    somebody else holds it they wait: nothing is asked of the handle
    and nothing changes.  When it is free and the operation comes back,
    returning or raising, the guard is free again. *)
Theorem guard_discipline `{Pq} (w : World) (flag : bool) (value : str) :
  (lock (conn w) = true ->
     Connection.commit w = (Blocked, w)
     /\ Connection.rollback w = (Blocked, w)
     /\ Connection._set_client_encoding value w = (Blocked, w)
     /\ Connection._set_autocommit flag w = (Blocked, w)
     /\ Connection.notifies [] w = (Blocked, w)
     /\ AsyncConnection.commit w = (Blocked, w)
     /\ AsyncConnection.rollback w = (Blocked, w)
     /\ AsyncConnection.set_client_encoding value w = (Blocked, w)
     /\ AsyncConnection.set_autocommit flag w = (Blocked, w)
     /\ AsyncConnection.notifies [] w = (Blocked, w))
  /\ (lock (conn w) = false ->
     (fst (Connection.commit w) <> Blocked ->
        lock (conn (snd (Connection.commit w))) = false)
     /\ (fst (Connection.rollback w) <> Blocked ->
        lock (conn (snd (Connection.rollback w))) = false)
     /\ (fst (Connection._set_client_encoding value w) <> Blocked ->
        lock (conn (snd (Connection._set_client_encoding value w))) = false)
     /\ (fst (Connection._set_autocommit flag w) <> Blocked ->
        lock (conn (snd (Connection._set_autocommit flag w))) = false)
     /\ (forall pending,
          fst (Connection.notifies pending w) <> Blocked ->
          lock (conn (snd (Connection.notifies pending w))) = false)
     /\ (fst (AsyncConnection.commit w) <> Blocked ->
        lock (conn (snd (AsyncConnection.commit w))) = false)
     /\ (fst (AsyncConnection.rollback w) <> Blocked ->
        lock (conn (snd (AsyncConnection.rollback w))) = false)
     /\ (fst (AsyncConnection.set_client_encoding value w) <> Blocked ->
        lock (conn (snd (AsyncConnection.set_client_encoding value w))) = false)
     /\ (fst (AsyncConnection.set_autocommit flag w) <> Blocked ->
        lock (conn (snd (AsyncConnection.set_autocommit flag w))) = false)
     /\ (forall pending,
          fst (AsyncConnection.notifies pending w) <> Blocked ->
          lock (conn (snd (AsyncConnection.notifies pending w))) = false)).
Proof.
  split.
  - intros Htaken.
    repeat apply conj;
      first [ apply sync_notifies_taken | apply async_notifies_taken
            | apply with_lock_taken ]; exact Htaken.
  - intros Hfree.
    repeat apply conj;
      first [ intros pending; apply sync_notifies_releases
            | intros pending; apply async_notifies_releases
            | apply with_lock_releases ]; exact Hfree.
Qed.

Lemma guard_discipline_witness :
  (Connection.commit w_guarded = (Blocked, w_guarded)
   /\ AsyncConnection.set_autocommit true w_guarded = (Blocked, w_guarded)
   /\ Connection.notifies [] w_guarded = (Blocked, w_guarded))
  /\ lock (conn (snd (Connection.commit w_intrans))) = false
  /\ lock (conn (snd (AsyncConnection.commit w_two_results))) = false.
Proof.
  destruct (guard_discipline w_guarded true "UTF8") as [Htaken _].
  destruct (Htaken eq_refl)
    as (Hcommit & _ & _ & _ & Hnotifies & _ & _ & _ & Hset & _).
  destruct (guard_discipline w_intrans true "UTF8") as [_ Hfree].
  destruct (Hfree eq_refl) as (Hsync & _).
  destruct (guard_discipline w_two_results true "UTF8") as [_ Hfree'].
  destruct (Hfree' eq_refl) as (_ & _ & _ & _ & _ & Hasync & _).
  split; [auto|].
  split; [apply Hsync | apply Hasync]; discriminate.
Defined.

(* ================================================================== *)
(** * The handler registries *)
(* ================================================================== *)

Section Registry.
Context `{Pq}.

Lemma list_remove_absent {A} (l : list (Handler A)) (x : Handler A) :
  (forall y, In y l -> hid y <> hid x) ->
  BaseConnection.list_remove l x = None.
Proof.
  induction l as [|y l IH]; intros Habsent; simpl; [reflexivity|].
  destruct (Nat.eqb (hid y) (hid x)) eqn:E.
  - apply Nat.eqb_eq in E. exfalso. exact (Habsent y (or_introl eq_refl) E).
  - rewrite IH; [reflexivity|]. intros z Hz. apply Habsent. right. exact Hz.
Qed.

Lemma list_remove_first {A} (before after : list (Handler A)) (y x : Handler A) :
  (forall z, In z before -> hid z <> hid x) ->
  hid y = hid x ->
  BaseConnection.list_remove (before ++ y :: after) x = Some (before ++ after).
Proof.
  induction before as [|z before IH]; intros Habsent Hsame; simpl.
  - rewrite Hsame, Nat.eqb_refl. reflexivity.
  - destruct (Nat.eqb (hid z) (hid x)) eqn:E.
    + apply Nat.eqb_eq in E. exfalso.
      exact (Habsent z (or_introl eq_refl) E).
    + rewrite IH; [reflexivity| |exact Hsame].
      intros u Hu. apply Habsent. right. exact Hu.
Qed.

Lemma set_notice_handlers_same (c : ConnectionState) :
  set_notice_handlers (_notice_handlers c) c = c.
Proof. destruct c; reflexivity. Qed.

Lemma set_notify_handlers_same (c : ConnectionState) :
  set_notify_handlers (_notify_handlers c) c = c.
Proof. destruct c; reflexivity. Qed.

End Registry.

(** Removing a handler takes its earliest registration out of the
    registry and leaves the other handlers, duplicates included, in
    their order; removing a handler that is not registered raises
    [ValueError] and changes nothing.  The same holds for notices and
    for notifications. *)
Theorem remove_handler_drops_earliest_registration `{Pq} (w : World)
    (notice : NoticeHandler) (notify : NotifyHandler) :
  ((forall y, In y (_notice_handlers (conn w)) -> hid y <> hid notice) ->
     BaseConnection.remove_notice_handler notice w
       = (Raise (ValueError "list.remove(x): x not in list"), w))
  /\ (forall before y after,
        _notice_handlers (conn w) = before ++ y :: after ->
        (forall z, In z before -> hid z <> hid notice) ->
        hid y = hid notice ->
        BaseConnection.remove_notice_handler notice w
          = (Return tt,
             {| conn := set_notice_handlers (before ++ after) (conn w);
                io := io w |}))
  /\ ((forall y, In y (_notify_handlers (conn w)) -> hid y <> hid notify) ->
      BaseConnection.remove_notify_handler notify w
        = (Raise (ValueError "list.remove(x): x not in list"), w))
  /\ (forall before y after,
        _notify_handlers (conn w) = before ++ y :: after ->
        (forall z, In z before -> hid z <> hid notify) ->
        hid y = hid notify ->
        BaseConnection.remove_notify_handler notify w
          = (Return tt,
             {| conn := set_notify_handlers (before ++ after) (conn w);
                io := io w |})).
Proof.
  unfold BaseConnection.remove_notice_handler,
    BaseConnection.remove_notify_handler. run.
  unfold NoticeHandler, NotifyHandler in *.
  repeat apply conj.
  - intros Habsent.
    rewrite (@list_remove_absent _ _ notice Habsent). reflexivity.
  - intros before y after Hl Habsent Hsame.
    rewrite Hl, (@list_remove_first _ before after y notice Habsent Hsame).
    reflexivity.
  - intros Habsent.
    rewrite (@list_remove_absent _ _ notify Habsent). reflexivity.
  - intros before y after Hl Habsent Hsame.
    rewrite Hl, (@list_remove_first _ before after y notify Habsent Hsame).
    reflexivity.
Qed.

Lemma remove_handler_drops_earliest_registration_witness :
  BaseConnection.remove_notice_handler (quiet 12) {| conn := listening; io := [] |}
    = (Raise (ValueError "list.remove(x): x not in list"),
       {| conn := listening; io := [] |})
  /\ BaseConnection.remove_notify_handler (quiet 11) {| conn := listening; io := [] |}
    = (Return tt,
       {| conn := set_notify_handlers [failing 10] listening; io := [] |}).
Proof.
  destruct (remove_handler_drops_earliest_registration
              {| conn := listening; io := [] |} (quiet 12) (quiet 11))
    as (Habsent & _ & _ & Hpresent).
  split.
  - apply Habsent.
    intros y [<-|[<-|[]]]; discriminate.
  - apply (Hpresent [failing 10] (quiet 11) []); [reflexivity| |reflexivity].
    intros z [<-|[]]; discriminate.
Defined.

(** Registering a handler and removing it again restores the registry
    when the handler was not registered before.  When it was, the
    registration that disappears is the earlier one and the new one
    stays at the end. *)
Theorem add_then_remove_handler `{Pq} (w : World) (cb : NoticeHandler) :
  ((forall y, In y (_notice_handlers (conn w)) -> hid y <> hid cb) ->
     bind (BaseConnection.add_notice_handler cb)
          (fun _ => BaseConnection.remove_notice_handler cb) w
       = (Return tt, w))
  /\ (forall before y after,
        _notice_handlers (conn w) = before ++ y :: after ->
        (forall z, In z before -> hid z <> hid cb) ->
        hid y = hid cb ->
        bind (BaseConnection.add_notice_handler cb)
             (fun _ => BaseConnection.remove_notice_handler cb) w
          = (Return tt,
             {| conn := set_notice_handlers (before ++ after ++ [cb]) (conn w);
                io := io w |})).
Proof.
  unfold BaseConnection.add_notice_handler,
    BaseConnection.remove_notice_handler. run.
  unfold NoticeHandler in *.
  split.
  - intros Habsent.
    rewrite (@list_remove_first _ (_notice_handlers (conn w)) [] cb cb
               Habsent eq_refl).
    rewrite app_nil_r. simpl.
    destruct w as [c tr]. destruct c. reflexivity.
  - intros before y after Hl Habsent Hsame. rewrite Hl.
    rewrite <- app_assoc. simpl.
    rewrite (@list_remove_first _ before (after ++ [cb]) y cb Habsent Hsame).
    simpl. destruct w as [c tr]. destruct c. reflexivity.
Qed.

Lemma add_then_remove_handler_witness :
  bind (BaseConnection.add_notice_handler (quiet 12))
       (fun _ => BaseConnection.remove_notice_handler (quiet 12))
       {| conn := listening; io := [] |}
    = (Return tt, {| conn := listening; io := [] |})
  /\ bind (BaseConnection.add_notice_handler (quiet 10))
          (fun _ => BaseConnection.remove_notice_handler (quiet 10))
          {| conn := listening; io := [] |}
    = (Return tt,
       {| conn := set_notice_handlers [quiet 11; quiet 10] listening; io := [] |}).
Proof.
  destruct (add_then_remove_handler {| conn := listening; io := [] |} (quiet 12))
    as (Hfresh & _).
  destruct (add_then_remove_handler {| conn := listening; io := [] |} (quiet 10))
    as (_ & Hdup).
  split.
  - apply Hfresh. intros y [<-|[<-|[]]]; discriminate.
  - apply (Hdup [] (failing 10) [quiet 11]); [reflexivity| |reflexivity].
    intros z [].
Defined.

(** A handler that has just been registered is invoked after all the
    handlers registered before it.  For notices this holds whatever the
    earlier handlers do, as long as what they raise is an [Exception];
    for notifications it holds when none of the earlier handlers
    raises. *)
Theorem added_handler_is_invoked_last `{Pq} (heap heap' : Heap)
    (wself : ReferenceType) (w : World) (res : PGresult)
    (pgn : PGnotify) (n : Notify)
    (notice : NoticeHandler) (notify : NotifyHandler) :
  deref heap wself = Some (conn w) ->
  (deref heap' wself
     = Some (conn (snd (BaseConnection.add_notice_handler notice w))) ->
   (forall cb ex,
       In cb (_notice_handlers (conn w) ++ [notice]) ->
       call cb {| diag_res := res; diag_encoding := _pyenc (conn w) |} = Some ex ->
       is_Exception ex = true) ->
   invoked (BaseConnection._notice_handler heap' wself res)
     = invoked (BaseConnection._notice_handler heap wself res)
       ++ [NoticeCall (hid notice)
             {| diag_res := res; diag_encoding := _pyenc (conn w) |}])
  /\ (deref heap' wself
        = Some (conn (snd (BaseConnection.add_notify_handler notify w))) ->
      BaseConnection.make_notify (_pyenc (conn w)) pgn = Return n ->
      (forall cb, In cb (_notify_handlers (conn w)) -> call cb n = None) ->
      invoked (BaseConnection._notify_handler heap' wself pgn)
        = map (fun cb => NotifyCall (hid cb) n) (_notify_handlers (conn w))
          ++ [NotifyCall (hid notify) n]).
Proof.
  intros Halive. split.
  - intros Halive' Hexc.
    rewrite (notice_handler_alive _ _ _ Halive'),
      (notice_handler_alive _ _ _ Halive).
    simpl.
    destruct (notice_loop_isolates
                (_notice_handlers (conn w) ++ [notice])
                {| diag_res := res; diag_encoding := _pyenc (conn w) |} Hexc)
      as (_ & Hinv & _).
    destruct (notice_loop_isolates
                (_notice_handlers (conn w))
                {| diag_res := res; diag_encoding := _pyenc (conn w) |})
      as (_ & Hinv0 & _).
    { intros cb ex Hin. apply Hexc. apply in_or_app. left. exact Hin. }
    rewrite Hinv, Hinv0, map_app. reflexivity.
  - intros Halive' Hdecoded Hquiet.
    unfold BaseConnection._notify_handler. rewrite Halive'. simpl.
    rewrite Hdecoded.
    replace (BaseConnection.list_truthy (_notify_handlers (conn w) ++ [notify]))
      with true by (destruct (_notify_handlers (conn w)); reflexivity).
    simpl.
    destruct (call notify n) as [ex|] eqn:Hcall.
    + rewrite (notify_loop_stops _ [] _ _ Hquiet Hcall). simpl.
      rewrite map_app. reflexivity.
    + rewrite notify_loop_quiet.
      * simpl. rewrite map_app. reflexivity.
      * intros cb Hin. apply in_app_or in Hin.
        destruct Hin as [Hin|[<-|[]]]; [apply Hquiet; exact Hin | exact Hcall].
Qed.

Lemma added_handler_is_invoked_last_witness :
  invoked (BaseConnection._notice_handler
             (fun a => if Nat.eqb a 1
                       then Some (set_notice_handlers [failing 10; quiet 11; quiet 12]
                                    listening)
                       else None)
             (ref 1) command_ok)
    = invoked (BaseConnection._notice_handler heap_listening (ref 1) command_ok)
      ++ [NoticeCall 12 {| diag_res := command_ok; diag_encoding := "utf-8" |}]
  /\ invoked (BaseConnection._notify_handler
                (fun a => if Nat.eqb a 1
                          then Some (set_notify_handlers [quiet 12] (conn w_idle))
                          else None)
                (ref 1) a_notification)
       = [NotifyCall 12 {| channel := "ch"; payload := "hello"; pid := 123 |}].
Proof.
  split.
  - apply (proj1 (@added_handler_is_invoked_last fake heap_listening
                    (fun a => if Nat.eqb a 1
                              then Some (set_notice_handlers
                                           [failing 10; quiet 11; quiet 12] listening)
                              else None)
                    (ref 1) {| conn := listening; io := [] |} command_ok
                    a_notification
                    {| channel := "ch"; payload := "hello"; pid := 123 |}
                    (quiet 12) (quiet 12) eq_refl));
      [reflexivity|].
    intros cb ex [<-|[<-|[<-|[]]]]; simpl; intros Hcall;
      inversion Hcall; reflexivity.
  - apply (proj2 (@added_handler_is_invoked_last fake heap_silent
                    (fun a => if Nat.eqb a 1
                              then Some (set_notify_handlers [quiet 12] (conn w_idle))
                              else None)
                    (ref 1) w_idle command_ok a_notification
                    {| channel := "ch"; payload := "hello"; pid := 123 |}
                    (quiet 12) (quiet 12) eq_refl));
      [reflexivity | reflexivity |].
    intros cb [].
Defined.

(* ================================================================== *)
(** * Reading [pyenc] again *)
(* ================================================================== *)

(** Reading [pyenc] never asks anything of the handle and touches only
    the two cached names.  A read that fails leaves the connection
    exactly as it was.  Reading a second time gives the same answer and
    changes nothing further: once read, the cache agrees with what the
    handle reports. *)
Theorem pyenc_read_twice `{Pq} (w : World) :
  BaseConnection.pyenc (snd (BaseConnection.pyenc w))
    = (fst (BaseConnection.pyenc w), snd (BaseConnection.pyenc w))
  /\ (forall ex, fst (BaseConnection.pyenc w) = Raise ex ->
                 snd (BaseConnection.pyenc w) = w)
  /\ io (snd (BaseConnection.pyenc w)) = io w
  /\ pgconn (conn (snd (BaseConnection.pyenc w))) = pgconn (conn w)
  /\ _autocommit (conn (snd (BaseConnection.pyenc w))) = _autocommit (conn w)
  /\ _notice_handlers (conn (snd (BaseConnection.pyenc w)))
       = _notice_handlers (conn w)
  /\ _notify_handlers (conn (snd (BaseConnection.pyenc w)))
       = _notify_handlers (conn w)
  /\ lock (conn (snd (BaseConnection.pyenc w))) = lock (conn w).
Proof.
  unfold BaseConnection.pyenc. run.
  remember (or_empty (PGconn_parameter_status (pgconn (conn w))
                        (b "client_encoding"))) as reported_name eqn:Hname.
  destruct (bytes_eqb (_pgenc (conn w)) reported_name) eqn:Hcached; simpl.
  - rewrite <- Hname, Hcached. simpl.
    repeat apply conj; try reflexivity; try discriminate.
  - destruct (bytes_truthy reported_name) eqn:Htruthy; simpl.
    + destruct (pq_py_codecs reported_name) as [codec|] eqn:Hcodec; simpl.
      * rewrite <- Hname, bytes_eqb_refl. simpl.
        repeat apply conj; try reflexivity; try discriminate.
      * destruct (decode_ascii reported_name) as [name|ex|] eqn:Hascii; simpl;
          rewrite <- Hname, Hcached; simpl;
          rewrite Htruthy, Hcodec; simpl; rewrite Hascii; simpl;
          repeat apply conj; reflexivity.
    + rewrite <- Hname, bytes_eqb_refl. simpl.
      repeat apply conj; try reflexivity; try discriminate.
Qed.

Lemma pyenc_read_twice_witness :
  snd (BaseConnection.pyenc w_unknown_encoding) = w_unknown_encoding
  /\ snd (BaseConnection.pyenc w_binary_encoding) = w_binary_encoding.
Proof.
  destruct (pyenc_read_twice w_unknown_encoding) as (_ & Hunknown & _).
  destruct (pyenc_read_twice w_binary_encoding) as (_ & Hbinary & _).
  split; [eapply Hunknown | eapply Hbinary]; reflexivity.
Defined.

(* ================================================================== *)
(** * How [begin] and the encoding query end *)
(* ================================================================== *)

(** When [_start_query] has a [begin] to issue, in both variants: a
    failure of the send is the outcome and the results are not awaited;
    otherwise the handle must deliver exactly one result, which decides:
    [COMMAND_OK] returns, any other status raises [OperationalError]
    with the diagnostic of the result, and no result or several results
    fail in the unpacking with [ValueError].  The handle is left as it
    answered. *)
Theorem start_query_outcome `{Pq} (w : World) :
  must_begin w ->
  (forall ex h1,
      PGconn_send_query (pgconn (conn w)) (b "begin") = (Raise ex, h1) ->
      Connection._start_query w
        = (Raise ex,
           {| conn := set_pgconn h1 (conn w);
              io := io w ++ [SendQuery (b "begin")] |})
      /\ AsyncConnection._start_query w = Connection._start_query w)
  /\ (forall h1 h2 results,
      PGconn_send_query (pgconn (conn w)) (b "begin") = (Return tt, h1) ->
      execute h1 = (Return results, h2) ->
      Connection._start_query w
        = (match results with
           | [pgres] =>
             if ExecStatus_.eqb (PGresult_status pgres) COMMAND_OK then Return tt
             else Raise (OperationalError
                           ("error on begin: "
                            ++ pq_error_message pgres (_pyenc (conn w)))%string)
           | [] =>
             Raise (ValueError "not enough values to unpack (expected 1, got 0)")
           | _ :: _ :: _ =>
             Raise (ValueError "too many values to unpack (expected 1)")
           end,
           {| conn := set_pgconn h2 (conn w);
              io := io w ++ [SendQuery (b "begin"); Execute] |})
      /\ AsyncConnection._start_query w = Connection._start_query w).
Proof.
  intros [Hauto Hidle]. split.
  - intros ex h1 Hsend. split; [|reflexivity].
    unfold Connection._start_query. run.
    rewrite Hauto, Hidle. simpl. rewrite Hsend. reflexivity.
  - intros h1 h2 results Hsend Hexec. split; [|reflexivity].
    unfold Connection._start_query. run.
    rewrite Hauto, Hidle. simpl. rewrite Hsend. simpl. rewrite Hexec. simpl.
    rewrite <- app_assoc. simpl.
    destruct results as [|pgres [|pgres' more]]; simpl; try reflexivity.
    destruct (ExecStatus_.eqb (PGresult_status pgres) COMMAND_OK); reflexivity.
Qed.

Lemma start_query_outcome_witness :
  fst (Connection._start_query w_idle_begin) = Return tt
  /\ fst (AsyncConnection._start_query w_begin_refused)
       = Raise (OperationalError "error on begin: current transaction is aborted")
  /\ fst (Connection._start_query w_idle)
       = Raise (ValueError "not enough values to unpack (expected 1, got 0)").
Proof.
  assert (Hbegin : forall w : World,
             must_begin w -> forall results h2,
             fake_send (pgconn (conn w)) = (Return tt, pgconn (conn w)) ->
             fake_execute (pgconn (conn w)) = (Return results, h2) ->
             Connection._start_query w
               = (match results with
                  | [pgres] =>
                    if ExecStatus_.eqb (PGresult_status pgres) COMMAND_OK
                    then Return tt
                    else Raise (OperationalError
                                  ("error on begin: "
                                   ++ pq_error_message pgres (_pyenc (conn w)))%string)
                  | [] =>
                    Raise (ValueError "not enough values to unpack (expected 1, got 0)")
                  | _ :: _ :: _ =>
                    Raise (ValueError "too many values to unpack (expected 1)")
                  end,
                  {| conn := set_pgconn h2 (conn w);
                     io := io w ++ [SendQuery (b "begin"); Execute] |})
                /\ AsyncConnection._start_query w = Connection._start_query w).
  { intros w Hw results h2 Hsend Hexec.
    exact (proj2 (@start_query_outcome fake w Hw) _ h2 results Hsend Hexec). }
  split; [|split].
  - rewrite (proj1 (Hbegin w_idle_begin (conj eq_refl eq_refl) _ _ eq_refl eq_refl)).
    reflexivity.
  - destruct (Hbegin w_begin_refused (conj eq_refl eq_refl) _ _ eq_refl eq_refl)
      as [Hsync Hasync].
    rewrite Hasync, Hsync. reflexivity.
  - rewrite (proj1 (Hbegin w_idle (conj eq_refl eq_refl) _ _ eq_refl eq_refl)).
    reflexivity.
Defined.

(** Setting the client encoding, in both variants and with the guard
    free.  A value that is not ASCII fails in the encoding of the
    parameter: nothing is asked of the handle and nothing changes.  For
    an ASCII value the query is sent with the value as its parameter and
    the handle must deliver exactly one result: [TUPLES_OK] returns, any
    other status (a plain [COMMAND_OK] too) raises the error built from
    the result, and no result or several results fail in the unpacking.
    The cached encoding names are not refreshed by the operation. *)
Theorem set_client_encoding_outcome `{Pq} (w : World) (value : str) :
  lock (conn w) = false ->
  (forall ex,
      encode_ascii value = Raise ex ->
      Connection._set_client_encoding value w = (Raise ex, w)
      /\ AsyncConnection.set_client_encoding value w = (Raise ex, w))
  /\ (forall param h1 h2 results,
      encode_ascii value = Return param ->
      PGconn_send_query_params (pgconn (conn w)) set_config_query [param]
        = (Return tt, h1) ->
      execute h1 = (Return results, h2) ->
      Connection._set_client_encoding value w
        = (match results with
           | [result] =>
             if ExecStatus_.eqb (PGresult_status result) TUPLES_OK then Return tt
             else Raise (e_error_from_result result (_pyenc (conn w)))
           | [] =>
             Raise (ValueError "not enough values to unpack (expected 1, got 0)")
           | _ :: _ :: _ =>
             Raise (ValueError "too many values to unpack (expected 1)")
           end,
           {| conn := set_pgconn h2 (conn w);
              io := io w ++ [SendQueryParams set_config_query [param]; Execute] |})
      /\ AsyncConnection.set_client_encoding value w
           = Connection._set_client_encoding value w).
Proof.
  intros Hfree. split.
  - intros ex Henc.
    unfold Connection._set_client_encoding, AsyncConnection.set_client_encoding.
    split; apply with_lock_pure; try exact Hfree; try discriminate;
      run; rewrite Henc; reflexivity.
  - intros param h1 h2 results Henc Hsend Hexec. split; [|reflexivity].
    unfold Connection._set_client_encoding, with_lock. rewrite Hfree.
    unfold set_config_query in *. run.
    rewrite Henc. simpl. rewrite Hsend. simpl. rewrite Hexec. simpl.
    rewrite <- app_assoc. simpl.
    destruct w as [c tr]. destruct c. simpl in *. subst.
    destruct results as [|result [|result' more]]; simpl; try reflexivity.
    destruct (ExecStatus_.eqb (PGresult_status result) TUPLES_OK); reflexivity.
Qed.

Lemma set_client_encoding_outcome_witness :
  (Connection._set_client_encoding accented w_idle_config
     = (Raise (UnicodeEncodeError "ascii"), w_idle_config)
   /\ AsyncConnection.set_client_encoding accented w_idle_config
     = (Raise (UnicodeEncodeError "ascii"), w_idle_config))
  /\ fst (Connection._set_client_encoding "LATIN1" w_idle_config) = Return tt
  /\ fst (AsyncConnection.set_client_encoding "LATIN1" w_intrans)
       = Raise (OtherException "DatabaseError" "").
Proof.
  split; [|split].
  - apply (proj1 (@set_client_encoding_outcome fake w_idle_config accented eq_refl)).
    reflexivity.
  - rewrite (proj1 (proj2 (@set_client_encoding_outcome fake w_idle_config
                             "LATIN1" eq_refl)
                      (b "LATIN1") (pgconn (conn w_idle_config))
                      (snd (fake_execute (pgconn (conn w_idle_config))))
                      [tuples_ok] eq_refl eq_refl eq_refl)).
    reflexivity.
  - destruct (proj2 (@set_client_encoding_outcome fake w_intrans "LATIN1" eq_refl)
                (b "LATIN1") (pgconn (conn w_intrans))
                (snd (fake_execute (pgconn (conn w_intrans))))
                [command_ok] eq_refl eq_refl eq_refl) as [Hsync Hasync].
    rewrite Hasync, Hsync. reflexivity.
Defined.

(* ================================================================== *)
(** * Notifications as a stream *)
(* ================================================================== *)

Section Stream.
Context `{Pq}.

(** What [pyenc] returns is the name it leaves in the cache. *)
Lemma pyenc_returns_cached (w w' : World) (codec : str) :
  BaseConnection.pyenc w = (Return codec, w') -> _pyenc (conn w') = codec.
Proof.
  unfold BaseConnection.pyenc. run.
  destruct (bytes_eqb _ _); simpl.
  - intros E. inversion E. reflexivity.
  - destruct (bytes_truthy _); simpl.
    + destruct (pq_py_codecs _) as [known|]; simpl.
      * intros E. inversion E. reflexivity.
      * destruct (decode_ascii _); simpl; discriminate.
    + intros E. inversion E. reflexivity.
Qed.

(** The step of a generator that has a notification pending. *)
Lemma sync_notifies_yields (w : World) (pgn : PGnotify) (rest : list PGnotify) :
  Connection.notifies (pgn :: rest) w
    = (match BaseConnection.make_notify (_pyenc (conn w)) pgn with
       | Return n => Return (Yielded n, rest)
       | Raise ex => Raise ex
       | Blocked => Blocked
       end, w).
Proof.
  unfold Connection.notifies. run.
  destruct (BaseConnection.make_notify (_pyenc (conn w)) pgn); reflexivity.
Qed.

(** Decoding as UTF-8. *)
Lemma make_notify_utf8 (pgn : PGnotify) :
  BaseConnection.make_notify "utf-8" pgn
    = if utf8_valid (relname pgn) && utf8_valid (extra pgn)
      then Return {| channel := string_of_list_byte (relname pgn);
                     payload := string_of_list_byte (extra pgn);
                     pid := be_pid pgn |}
      else Raise (UnicodeDecodeError "utf-8").
Proof.
  unfold BaseConnection.make_notify, decode. simpl. unfold decode_utf8.
  destruct (utf8_valid (relname pgn)); simpl; [|reflexivity].
  destruct (utf8_valid (extra pgn)); reflexivity.
Qed.

(** [next(gen)], by what the first step of the body does. *)
Lemma resume_fetched (step : list PGnotify -> M (Turn * list PGnotify))
    (fuel : nat) (pending ns : list PGnotify) (w w1 : World) :
  step pending w = (Return (Fetched, ns), w1) ->
  resume step (S fuel) pending w = resume step fuel ns w1.
Proof. intros Hstep. simpl. unfold bind at 1. rewrite Hstep. reflexivity. Qed.

Lemma resume_yielded (step : list PGnotify -> M (Turn * list PGnotify))
    (fuel : nat) (pending rest : list PGnotify) (n : Notify) (w w1 : World) :
  step pending w = (Return (Yielded n, rest), w1) ->
  resume step fuel pending w = (Return (Some n, rest), w1).
Proof.
  intros Hstep. destruct fuel; simpl; unfold bind; rewrite Hstep; reflexivity.
Qed.

Lemma resume_raised (step : list PGnotify -> M (Turn * list PGnotify))
    (fuel : nat) (pending : list PGnotify) (ex : Exn) (w w1 : World) :
  step pending w = (Raise ex, w1) ->
  resume step fuel pending w = (Raise ex, w1).
Proof.
  intros Hstep. destruct fuel; simpl; unfold bind; rewrite Hstep; reflexivity.
Qed.

Lemma resume_blocked (step : list PGnotify -> M (Turn * list PGnotify))
    (fuel : nat) (pending : list PGnotify) (w w1 : World) :
  step pending w = (Blocked, w1) ->
  resume step fuel pending w = (Blocked, w1).
Proof.
  intros Hstep. destruct fuel; simpl; unfold bind; rewrite Hstep; reflexivity.
Qed.

End Stream.

(** A [notifies] generator, in both variants, makes the record of a
    pending notification at the moment it yields it: the step takes no
    guard, asks nothing of the handle, changes nothing, and decodes with
    the encoding name the connection holds then.  So the name [pyenc]
    has just returned is the one the next record is decoded with, also
    in the middle of a batch.  With the name ["utf-8"] the record holds
    exactly the channel, the payload and the process id received, and a
    channel or payload that is not well-formed UTF-8 raises
    [UnicodeDecodeError], which ends the generator. *)
Theorem notifies_decodes_when_yielding `{Pq} (w : World) (pgn : PGnotify)
    (rest : list PGnotify) :
  Connection.notifies (pgn :: rest) w
    = (match BaseConnection.make_notify (_pyenc (conn w)) pgn with
       | Return n => Return (Yielded n, rest)
       | Raise ex => Raise ex
       | Blocked => Blocked
       end, w)
  /\ AsyncConnection.notifies (pgn :: rest) w
     = Connection.notifies (pgn :: rest) w
  /\ (_pyenc (conn w) = "utf-8" ->
      Connection.notifies (pgn :: rest) w
        = (if utf8_valid (relname pgn) && utf8_valid (extra pgn)
           then Return (Yielded {| channel := string_of_list_byte (relname pgn);
                                   payload := string_of_list_byte (extra pgn);
                                   pid := be_pid pgn |}, rest)
           else Raise (UnicodeDecodeError "utf-8"),
           w))
  /\ (forall codec w',
        BaseConnection.pyenc w = (Return codec, w') ->
        Connection.notifies (pgn :: rest) w'
          = (match BaseConnection.make_notify codec pgn with
             | Return n => Return (Yielded n, rest)
             | Raise ex => Raise ex
             | Blocked => Blocked
             end, w')).
Proof.
  split; [apply sync_notifies_yields|].
  split; [reflexivity|].
  split.
  - intros Hutf8. rewrite sync_notifies_yields, Hutf8, make_notify_utf8.
    destruct (utf8_valid (relname pgn) && utf8_valid (extra pgn)); reflexivity.
  - intros codec w' Hread.
    rewrite sync_notifies_yields, (pyenc_returns_cached _ Hread). reflexivity.
Qed.

Lemma notifies_decodes_when_yielding_witness :
  Connection.notifies [a_notification; a_broken_notification] w_guarded
    = (Return (Yielded {| channel := "ch"; payload := "hello"; pid := 123 |},
               [a_broken_notification]),
       w_guarded)
  /\ Connection.notifies [a_broken_notification] w_cached
     = (Raise (UnicodeDecodeError "utf-8"), w_cached).
Proof.
  split.
  - exact (proj1 (proj2 (proj2 (@notifies_decodes_when_yielding fake w_guarded
                                  a_notification [a_broken_notification])))
             eq_refl).
  - exact (proj2 (proj2 (proj2 (@notifies_decodes_when_yielding fake w_idle
                                  a_broken_notification [])))
             "utf-8" w_cached eq_refl).
Defined.

(** [next] on a [notifies] generator with nothing pending, in both
    variants and with the guard free, asks the handle for its pending
    notifications.  The first notification of the batch the handle
    returns is decoded and yielded, the others stay pending, and the
    connection keeps the handle as the answer left it.  A failure of the
    handle is the outcome.  An empty batch sends the generator round its
    loop: it asks the handle again. *)
Theorem notifies_next_fetches_a_batch `{Pq} (w : World) (fuel : nat) :
  lock (conn w) = false ->
  (forall pgn rest h',
      generators_notifies (pgconn (conn w)) = (Return (pgn :: rest), h') ->
      resume Connection.notifies (S fuel) [] w
        = (match BaseConnection.make_notify (_pyenc (conn w)) pgn with
           | Return n => Return (Some n, rest)
           | Raise ex => Raise ex
           | Blocked => Blocked
           end,
           {| conn := set_pgconn h' (conn w); io := io w ++ [Notifies] |}))
  /\ (forall h',
      generators_notifies (pgconn (conn w)) = (Return [], h') ->
      resume Connection.notifies (S fuel) [] w
        = resume Connection.notifies fuel []
            {| conn := set_pgconn h' (conn w); io := io w ++ [Notifies] |})
  /\ (forall ex h',
      generators_notifies (pgconn (conn w)) = (Raise ex, h') ->
      resume Connection.notifies fuel [] w
        = (Raise ex,
           {| conn := set_pgconn h' (conn w); io := io w ++ [Notifies] |}))
  /\ (forall pending,
      resume AsyncConnection.notifies fuel pending w
        = resume Connection.notifies fuel pending w).
Proof.
  intros Hfree.
  assert (Hfetch := sync_notifies_fetches w Hfree).
  repeat apply conj.
  - intros pgn rest h' Hgen. specialize (Hfetch _ _ Hgen). cbv beta iota in Hfetch.
    rewrite (@resume_fetched _ Connection.notifies fuel [] (pgn :: rest) w _ Hfetch).
    pose proof (sync_notifies_yields
                  {| conn := set_pgconn h' (conn w); io := io w ++ [Notifies] |}
                  pgn rest) as Hyield.
    simpl in Hyield.
    destruct (BaseConnection.make_notify (_pyenc (conn w)) pgn) as [n|ex|].
    + apply resume_yielded. exact Hyield.
    + apply resume_raised. exact Hyield.
    + apply resume_blocked. exact Hyield.
  - intros h' Hgen. specialize (Hfetch _ _ Hgen). cbv beta iota in Hfetch.
    apply resume_fetched. exact Hfetch.
  - intros ex h' Hgen. specialize (Hfetch _ _ Hgen). cbv beta iota in Hfetch.
    apply resume_raised. exact Hfetch.
  - intros pending. reflexivity.
Qed.

Lemma notifies_next_fetches_a_batch_witness :
  @resume pending_handle Connection.notifies 1 [] w_pending
    = (Return (Some {| channel := "ch"; payload := "hello"; pid := 123 |},
               [a_broken_notification]),
       {| conn := @set_pgconn pending_handle [] (conn w_pending);
          io := [Notifies] |})
  /\ @resume pending_handle AsyncConnection.notifies 1 [] w_pending
     = @resume pending_handle Connection.notifies 1 [] w_pending.
Proof.
  destruct (@notifies_next_fetches_a_batch pending_handle w_pending 0 eq_refl)
    as (Hbatch & _ & _ & _).
  destruct (@notifies_next_fetches_a_batch pending_handle w_pending 1 eq_refl)
    as (_ & _ & _ & Hasync).
  split.
  - exact (Hbatch a_notification [a_broken_notification] [] eq_refl).
  - exact (Hasync []).
Defined.

(* ================================================================== *)
(** * Operations in sequence *)
(* ================================================================== *)

(** Once [_start_query] has sent [begin] and the handle reports a
    transaction status other than Idle, calling [_start_query] again
    sends nothing and returns, whatever the outcome of the first call
    was: [begin] is issued once per transaction.  If the handle still
    reports Idle, the next call sends [begin] again. *)
Theorem begin_is_issued_once `{Pq} (w : World) (h1 h2 : PGconn)
    (r : Res (list PGresult)) :
  must_begin w ->
  PGconn_send_query (pgconn (conn w)) (b "begin") = (Return tt, h1) ->
  execute h1 = (r, h2) ->
  (PGconn_transaction_status h2 <> IDLE ->
     Connection._start_query (snd (Connection._start_query w))
       = (Return tt, snd (Connection._start_query w))
     /\ AsyncConnection._start_query (snd (AsyncConnection._start_query w))
       = (Return tt, snd (AsyncConnection._start_query w)))
  /\ (PGconn_transaction_status h2 = IDLE ->
     sends (SendQuery (b "begin")) Connection._start_query
       (snd (Connection._start_query w))
     /\ sends (SendQuery (b "begin")) AsyncConnection._start_query
       (snd (AsyncConnection._start_query w))).
Proof.
  intros [Hauto Hidle] Hsend Hexec.
  assert (Hafter : snd (Connection._start_query w)
                   = {| conn := set_pgconn h2 (conn w);
                        io := io w ++ [SendQuery (b "begin"); Execute] |}).
  { unfold Connection._start_query. run.
    rewrite Hauto, Hidle. simpl. rewrite Hsend. simpl. rewrite Hexec.
    rewrite <- app_assoc.
    destruct r as [results| |]; simpl; try reflexivity.
    destruct (unpack1 results) as [pgres| |]; simpl; try reflexivity.
    destruct (ExecStatus_.eqb (PGresult_status pgres) COMMAND_OK);
      reflexivity. }
  assert (Hafter' : snd (AsyncConnection._start_query w)
                    = snd (Connection._start_query w)) by reflexivity.
  rewrite Hafter', Hafter. split.
  - intros Hopen.
    split; [apply sync_start_query_skips | apply async_start_query_skips];
      intros [_ Hstill]; exact (Hopen Hstill).
  - intros Hstill.
    split; [apply sync_start_query_begins | apply async_start_query_begins];
      split; assumption.
Qed.

Lemma begin_is_issued_once_witness :
  (Connection._start_query (snd (Connection._start_query w_idle_begin))
     = (Return tt, snd (Connection._start_query w_idle_begin))
   /\ AsyncConnection._start_query (snd (AsyncConnection._start_query w_idle_begin))
     = (Return tt, snd (AsyncConnection._start_query w_idle_begin)))
  /\ sends (SendQuery (b "begin")) Connection._start_query
       (snd (Connection._start_query w_begin_refused)).
Proof.
  split.
  - apply (proj1 (@begin_is_issued_once fake w_idle_begin
                    (pgconn (conn w_idle_begin))
                    (snd (fake_execute (pgconn (conn w_idle_begin))))
                    (Return [command_ok])
                    (conj eq_refl eq_refl) eq_refl eq_refl)).
    discriminate.
  - apply (proj2 (@begin_is_issued_once fake w_begin_refused
                    (pgconn (conn w_begin_refused))
                    (snd (fake_execute (pgconn (conn w_begin_refused))))
                    (Return [aborted])
                    (conj eq_refl eq_refl) eq_refl eq_refl)).
    reflexivity.
Defined.

(** Switching autocommit decides what the next [_start_query] does.  On
    an idle connection with the guard free, after autocommit is set
    (through the setter of [Connection] or [set_autocommit] of
    [AsyncConnection]) [_start_query] sends nothing and returns; after
    it is cleared [_start_query] puts [begin] to the handle: the send is
    applied to the handle, its failure or else the one result awaited
    decides, and the connection keeps the handle as the answers left
    it. *)
Theorem autocommit_decides_begin `{Pq} (w : World) :
  lock (conn w) = false ->
  reported w = IDLE ->
  Connection._start_query (snd (Connection.autocommit_setter true w))
    = (Return tt, snd (Connection.autocommit_setter true w))
  /\ AsyncConnection._start_query (snd (AsyncConnection.set_autocommit true w))
    = (Return tt, snd (AsyncConnection.set_autocommit true w))
  /\ snd (Connection.autocommit_setter false w) = assigned false w
  /\ snd (AsyncConnection.set_autocommit false w) = assigned false w
  /\ runs_command (SendQuery (b "begin"))
       (fun h => PGconn_send_query h (b "begin"))
       (fun results =>
          check_status COMMAND_OK
            (fun r => OperationalError
                        ("error on begin: "
                         ++ pq_error_message r (_pyenc (conn w)))%string)
            (unpack1 results))
       Connection._start_query (assigned false w)
  /\ AsyncConnection._start_query (assigned false w)
     = Connection._start_query (assigned false w).
Proof.
  intros Hfree Hidle.
  unfold Connection.autocommit_setter, Connection._set_autocommit,
    AsyncConnection.set_autocommit.
  rewrite !(locked_set_autocommit _ _ Hfree).
  rewrite !(base_set_autocommit_idle _ _ Hidle). simpl.
  repeat apply conj; try reflexivity.
  apply (@sync_start_query_runs _ (assigned false w)).
  split; [reflexivity | exact Hidle].
Qed.

Lemma autocommit_decides_begin_witness :
  Connection._start_query (snd (Connection.autocommit_setter true w_idle_begin))
    = (Return tt, snd (Connection.autocommit_setter true w_idle_begin))
  /\ Connection._start_query (snd (Connection.autocommit_setter false w_idle_begin))
    = (Return tt,
       {| conn := set_pgconn (snd (fake_execute (pgconn (conn w_idle_begin))))
                    (conn w_idle_begin);
          io := [SendQuery (b "begin"); Execute] |}).
Proof.
  destruct (@autocommit_decides_begin fake w_idle_begin eq_refl eq_refl)
    as (Hon & _ & Hoff & _ & Hruns & _).
  split; [exact Hon|].
  rewrite Hoff.
  exact (Hruns (Return tt) (pgconn (conn w_idle_begin)) eq_refl
           (Return [command_ok])
           (snd (fake_execute (pgconn (conn w_idle_begin)))) eq_refl).
Defined.
